(** * PocketSmart AI: the [/analyze] request handler of [app.py]

    A shallow embedding of the Flask application in [src/app.py]: the
    module-level start-up code, the validation of the two JSON-derived
    fields, the prompt template, the retry loop around the external
    chat-completion call and the mapping of exceptions to HTTP responses.

    Conventions of the embedding.
    - A Python [str] is a Rocq [string] holding its UTF-8 bytes.  The
      case and white-space operations ([lower], [title], [strip]) and
      [float] of a string are those of CPython on ASCII text
      ([PyStr.is_ascii]): they act on the ASCII range and carry every
      other byte through unchanged.  Where a statement is about how the
      text of a request is classified or shown, it carries the
      hypothesis that the text is ASCII.
    - A Python [float] is an IEEE-754 binary64 value, [spec_float] of the
      Standard Library with precision 53 and maximal exponent 1024.
    - A Python [dict] is an association list in insertion order.
    - The outside world (the decoded request body, the outcome of each call
      of the chat-completion endpoint) is an input of the model; what the
      handler does to it (calls, sleeps, log records) is a trace of events. *)

From Stdlib Require Import ZArith List String Ascii Bool Lia DecimalString.
From Stdlib Require Import Floats.SpecFloat.
Import ListNotations.

Open Scope string_scope.
Open Scope Z_scope.

(* ------------------------------------------------------------------ *)
(** ** Python [str] operations used by the handler *)
(* ------------------------------------------------------------------ *)

Module PyStr.

Definition code (c : ascii) : Z := Z.of_nat (nat_of_ascii c).

Definition chr (z : Z) : ascii := ascii_of_nat (Z.to_nat z).

Definition between (lo hi : Z) (c : ascii) : bool :=
  (lo <=? code c) && (code c <=? hi).

(** The one-character string and the line feed of ["\n"]. *)
Definition char (c : ascii) : string := String c EmptyString.

Definition nl : string := char (chr 10).

(** [str.isspace] on the ASCII range: TAB..CR, FS..US and the space. *)
Definition is_space (c : ascii) : bool := between 9 13 c || between 28 32 c.

Definition is_upper (c : ascii) : bool := between 65 90 c.

Definition is_lower (c : ascii) : bool := between 97 122 c.

Definition is_cased (c : ascii) : bool := is_upper c || is_lower c.

Definition is_digit (c : ascii) : bool := between 48 57 c.

Definition to_lower (c : ascii) : ascii :=
  if is_upper c then chr (code c + 32) else c.

Definition to_upper (c : ascii) : ascii :=
  if is_lower c then chr (code c - 32) else c.

Fixpoint map (f : ascii -> ascii) (s : string) : string :=
  match s with
  | EmptyString => EmptyString
  | String c r => String (f c) (map f r)
  end.

(** [s.lower()] *)
Definition lower (s : string) : string := map to_lower s.

(** [s.replace(old, new)] for one-character [old] and [new]. *)
Definition replace (old new : ascii) (s : string) : string :=
  map (fun c => if Ascii.eqb c old then new else c) s.

(** [s.title()]: a cased character is upper-cased when the character
    before it is not cased, and lower-cased otherwise. *)
Fixpoint title_from (previous_is_cased : bool) (s : string) : string :=
  match s with
  | EmptyString => EmptyString
  | String c r =>
      String (if previous_is_cased then to_lower c else to_upper c)
             (title_from (is_cased c) r)
  end.

Definition title (s : string) : string := title_from false s.

Fixpoint lstrip (s : string) : string :=
  match s with
  | EmptyString => EmptyString
  | String c r => if is_space c then lstrip r else s
  end.

Fixpoint rstrip (s : string) : string :=
  match s with
  | EmptyString => EmptyString
  | String c r =>
      match rstrip r with
      | EmptyString => if is_space c then EmptyString else char c
      | r' => String c r'
      end
  end.

(** [s.strip()] *)
Definition strip (s : string) : string := rstrip (lstrip s).

(** [sub in s] *)
Fixpoint contains (sub s : string) : bool :=
  String.prefix sub s ||
  match s with
  | EmptyString => false
  | String _ r => contains sub r
  end.

(** [sep.join(parts)] *)
Fixpoint join (sep : string) (parts : list string) : string :=
  match parts with
  | [] => EmptyString
  | [p] => p
  | p :: rest => p ++ sep ++ join sep rest
  end.

(** [str(n)] for an integer. *)
Definition of_int (z : Z) : string := NilZero.string_of_int (Z.to_int z).

(** [s.isascii()] *)
Fixpoint is_ascii (s : string) : bool :=
  match s with
  | EmptyString => true
  | String c r => (code c <? 128) && is_ascii r
  end.

Definition to_list (s : string) : list ascii := list_ascii_of_string s.

Definition of_list (l : list ascii) : string := string_of_list_ascii l.

End PyStr.

(* ------------------------------------------------------------------ *)
(** ** Python [float]: IEEE-754 binary64 *)
(* ------------------------------------------------------------------ *)

Module PyFloat.
Import PyStr.

Definition float : Type := spec_float.

Definition prec : Z := 53.

Definition emax : Z := 1024.

Definition pos_zero : float := S754_zero false.

(** [x + y], [x - y] and [x < y] on floats. *)
Definition add (x y : float) : float := SFadd prec emax x y.

Definition sub (x y : float) : float := SFsub prec emax x y.

Definition ltb (x y : float) : bool := SFltb x y.

(** [bool(x)]: every float but the two zeros is true. *)
Definition truthy (x : float) : bool :=
  match x with
  | S754_zero _ => false
  | _ => true
  end.

(** [float(n)] for an integer [n]: the nearest double, ties to even;
    [None] stands for [OverflowError], raised when that double would
    not be finite. *)
Definition of_int (z : Z) : option float :=
  match binary_normalize prec emax z 0 false with
  | S754_infinity _ => None
  | x => Some x
  end.

(** The double nearest to [n / d]. *)
Definition of_ratio (s : bool) (n d : positive) : float :=
  let '(q, e, l) := SFdiv_core_binary prec emax (Zpos n) 0 (Zpos d) 0 in
  binary_round_aux prec emax s q e l.

(** The double nearest to [digits * 10 ^ exp10], with sign [s]. *)
Definition of_decimal (s : bool) (digits exp10 : Z) : float :=
  match digits with
  | Zpos m =>
      match exp10 with
      | Zneg e => of_ratio s m (Pos.pow 10 e)
      | _ => binary_round prec emax s (Z.to_pos (Zpos m * 10 ^ exp10)) 0
      end
  | _ => S754_zero s
  end.

(** *** [float(s)] for a string *)

(** Underscores may only stand between two digits; they are dropped.
    [None] is a misplaced underscore. *)
Fixpoint remove_underscores (prev : ascii) (s : string) : option string :=
  match s with
  | EmptyString => if Ascii.eqb prev "_" then None else Some EmptyString
  | String c r =>
      if Ascii.eqb c "_" then
        if is_digit prev then remove_underscores c r else None
      else if Ascii.eqb prev "_" && negb (is_digit c) then None
      else option_map (String c) (remove_underscores c r)
  end.

Definition parse_sign (s : string) : bool * string :=
  match s with
  | String c r =>
      if Ascii.eqb c "-" then (true, r)
      else if Ascii.eqb c "+" then (false, r)
      else (false, s)
  | EmptyString => (false, s)
  end.

(** Reads a run of decimal digits: the value of [acc] followed by the
    digits, the number of digits read, and what is left. *)
Fixpoint span_digits (s : string) (acc count : Z) : Z * Z * string :=
  match s with
  | String c r =>
      if is_digit c then span_digits r (10 * acc + (code c - 48)) (count + 1)
      else (acc, count, s)
  | EmptyString => (acc, count, s)
  end.

Definition parse_inf_or_nan (s : string) : option float :=
  let '(neg, r) := parse_sign s in
  let w := lower r in
  if String.eqb w "inf" || String.eqb w "infinity" then Some (S754_infinity neg)
  else if String.eqb w "nan" then Some S754_nan
  else None.

(** [sign? digits* ('.' digits* )? ([eE] sign? digits+)?] with a digit in
    the mantissa, and nothing after it. *)
Definition parse_decimal (s : string) : option float :=
  let '(neg, s1) := parse_sign s in
  let '(ip, ni, s2) := span_digits s1 0 0 in
  let '(m, nf, s3) :=
    match s2 with
    | String "." r => span_digits r ip 0
    | _ => (ip, 0, s2)
    end in
  if ni + nf =? 0 then None
  else
    match s3 with
    | EmptyString => Some (of_decimal neg m (- nf))
    | String c r =>
        if Ascii.eqb c "e" || Ascii.eqb c "E" then
          let '(eneg, r1) := parse_sign r in
          let '(ev, ne, r2) := span_digits r1 0 0 in
          if ne =? 0 then None
          else
            match r2 with
            | EmptyString =>
                Some (of_decimal neg m ((if eneg then - ev else ev) - nf))
            | _ => None
            end
        else None
    end.

(** The blanks [float] skips at both ends of its argument: TAB..CR and
    the space.  This is [isspace] of the C locale, which leaves out the
    separators FS..US that [str.strip] removes. *)
Definition is_blank (c : ascii) : bool := between 9 13 c || Ascii.eqb c " ".

Fixpoint skip_blanks (s : string) : string :=
  match s with
  | EmptyString => EmptyString
  | String c r => if is_blank c then skip_blanks r else s
  end.

Fixpoint drop_blanks (s : string) : string :=
  match s with
  | EmptyString => EmptyString
  | String c r =>
      match drop_blanks r with
      | EmptyString => if is_blank c then EmptyString else char c
      | r' => String c r'
      end
  end.

(** [float(s)]; [None] stands for [ValueError]. *)
Definition of_string (s : string) : option float :=
  match (if contains "_" s then remove_underscores (chr 0) s else Some s) with
  | None => None
  | Some s1 =>
      let s2 := drop_blanks (skip_blanks s1) in
      match parse_inf_or_nan s2 with
      | Some x => Some x
      | None => parse_decimal s2
      end
  end.

(** *** The format specification [,.2f] *)

(** [|x| * 100] for [x = m * 2 ^ e], rounded to an integer, ties to even. *)
Definition hundredths (m : positive) (e : Z) : Z :=
  match e with
  | Zneg k =>
      let d := 2 ^ Zpos k in
      let n := 100 * Zpos m in
      let q := n / d in
      match 2 * (n mod d) ?= d with
      | Lt => q
      | Gt => q + 1
      | Eq => if Z.even q then q else q + 1
      end
  | _ => 100 * Zpos m * 2 ^ e
  end.

(** Walks the digits from the least significant one, with a comma before
    every fourth. *)
Fixpoint group_rev (digits : list ascii) (n : nat) : list ascii :=
  match digits with
  | [] => []
  | c :: r =>
      if Nat.eqb n 3 then ","%char :: c :: group_rev r 1
      else c :: group_rev r (S n)
  end.

Definition group_thousands (s : string) : string :=
  of_list (rev (group_rev (rev (to_list s)) 0)).

Definition two_digits (z : Z) : string :=
  if z <? 10 then "0" ++ PyStr.of_int z else PyStr.of_int z.

(** [f"{x:,.2f}"] *)
Definition format_2f (x : float) : string :=
  match x with
  | S754_nan => "nan"
  | S754_infinity s => if s then "-inf" else "inf"
  | S754_zero s => (if s then "-" else "") ++ "0.00"
  | S754_finite s m e =>
      let h := hundredths m e in
      (if s then "-" else "")
        ++ group_thousands (PyStr.of_int (h / 100)) ++ "." ++ two_digits (h mod 100)
  end.

(** [sum(xs)] over floats: the running total starts from the integer 0
    and takes the items from left to right, each addition rounded to a
    double (the plain summation of CPython; the compensated summation
    that CPython 3.12 introduced for floats is not modelled). *)
Definition sum (xs : list float) : float := fold_left add xs pos_zero.

End PyFloat.

(* ------------------------------------------------------------------ *)
(** ** Python values as [request.get_json] yields them *)
(* ------------------------------------------------------------------ *)

Module Py.
Import PyStr.

#[warning="-register-all"]
Inductive value : Type :=
| VNone
| VBool (b : bool)
| VInt (z : Z)
| VFloat (x : PyFloat.float)
| VStr (s : string)
| VList (l : list value)
| VDict (d : list (string * value)).

(** A [dict] with string keys, in insertion order. *)
Definition dict (V : Type) : Type := list (string * V).

Fixpoint dict_get {V : Type} (d : dict V) (key : string) : option V :=
  match d with
  | [] => None
  | (k, v) :: r => if String.eqb k key then Some v else dict_get r key
  end.

(** [d[key] = v]: an existing key keeps its place, a new one goes last. *)
Fixpoint dict_set {V : Type} (d : dict V) (key : string) (v : V) : dict V :=
  match d with
  | [] => [(key, v)]
  | (k, w) :: r =>
      if String.eqb k key then (k, v) :: r else (k, w) :: dict_set r key v
  end.

Definition keys {V : Type} (d : dict V) : list string := List.map fst d.

Definition values {V : Type} (d : dict V) : list V := List.map snd d.

(** [bool(v)] *)
Definition truthy (v : value) : bool :=
  match v with
  | VNone => false
  | VBool b => b
  | VInt z => negb (z =? 0)
  | VFloat x => PyFloat.truthy x
  | VStr s => negb (String.eqb s "")
  | VList l => match l with [] => false | _ => true end
  | VDict d => match d with [] => false | _ => true end
  end.

(** [type(v).__name__] *)
Definition type_name (v : value) : string :=
  match v with
  | VNone => "NoneType"
  | VBool _ => "bool"
  | VInt _ => "int"
  | VFloat _ => "float"
  | VStr _ => "str"
  | VList _ => "list"
  | VDict _ => "dict"
  end.

Definition is_none (v : value) : bool :=
  match v with
  | VNone => true
  | _ => false
  end.

Definition isinstance_dict (v : value) : bool :=
  match v with
  | VDict _ => true
  | _ => false
  end.

(** [v.items()] of a dict. *)
Definition items (v : value) : dict value :=
  match v with
  | VDict d => d
  | _ => []
  end.

(** [str(v).strip() == ""]: of the values above only a string can print
    as blanks, since [str] of [None], a number, a list or a dict has a
    visible character. *)
Definition str_strip_is_empty (v : value) : bool :=
  match v with
  | VStr s => String.eqb (strip s) ""
  | _ => false
  end.

(** The exception classes [float] raises. *)
Inductive float_error : Type :=
| FloatValueError
| FloatTypeError
| FloatOverflowError.

(** [float(v)] *)
Definition float (v : value) : PyFloat.float + float_error :=
  match v with
  | VBool b =>
      match PyFloat.of_int (if b then 1 else 0) with
      | Some x => inl x
      | None => inr FloatOverflowError
      end
  | VInt z =>
      match PyFloat.of_int z with
      | Some x => inl x
      | None => inr FloatOverflowError
      end
  | VFloat x => inl x
  | VStr s =>
      match PyFloat.of_string s with
      | Some x => inl x
      | None => inr FloatValueError
      end
  | VNone | VList _ | VDict _ => inr FloatTypeError
  end.

(** Exceptions, as far as the handler looks at them: the class decides
    which [except] clause catches, [str(exc)] is what it inspects. *)
Inductive exn_class : Type :=
| ValueError
| TypeError
| OverflowError
| AttributeError
| IndexError
| RuntimeError
| OtherException (name : string).

Record exn : Type := { class : exn_class; str : string }.

End Py.

(* ------------------------------------------------------------------ *)
(** ** Module start-up: lines 10-28 and 144-148 of [app.py] *)
(* ------------------------------------------------------------------ *)

Module Startup.
Import Py.

Inductive view : Type := home | analyze.

Record route : Type :=
  { rule : string; methods : list string; endpoint : view }.

(** The module's globals as they get bound, the routes registered on
    [app], and whether [app.run] has been entered. *)
Record module_state : Type :=
  { GROQ_API_KEY : option string;
    client : option string;
    MODEL : option string;
    app : option (list route);
    serving : bool }.

Definition initial : module_state :=
  {| GROQ_API_KEY := None; client := None; MODEL := None;
     app := None; serving := false |}.

(** The statements of the module body, in source order. *)
Inductive stmt : Type :=
| assign_GROQ_API_KEY
| check_GROQ_API_KEY
| assign_client
| assign_MODEL
| assign_app
| app_route (r : route)
| run_if_main.

Definition module_body : list stmt :=
  [ assign_GROQ_API_KEY;
    check_GROQ_API_KEY;
    assign_client;
    assign_MODEL;
    assign_app;
    app_route {| rule := "/"; methods := ["GET"]; endpoint := home |};
    app_route {| rule := "/analyze"; methods := ["POST"]; endpoint := analyze |};
    run_if_main ].

(** [not v] for the result of [os.getenv]. *)
Definition not_key (v : option string) : bool :=
  match v with
  | None => true
  | Some s => String.eqb s ""
  end.

(** One statement.  [getenv] is [os.getenv] once [load_dotenv()] has
    run; [is_main] is [__name__ == "__main__"]. *)
Definition exec (getenv : string -> option string) (is_main : bool)
    (s : stmt) (st : module_state) : exn + module_state :=
  match s with
  | assign_GROQ_API_KEY =>
      inr {| GROQ_API_KEY := getenv "GROQ_API_KEY"; client := client st;
             MODEL := MODEL st; app := app st; serving := serving st |}
  | check_GROQ_API_KEY =>
      if not_key (GROQ_API_KEY st) then
        inl {| class := RuntimeError;
               str := "GROQ_API_KEY not found. Please set it in your .env file." |}
      else inr st
  | assign_client =>
      inr {| GROQ_API_KEY := GROQ_API_KEY st; client := GROQ_API_KEY st;
             MODEL := MODEL st; app := app st; serving := serving st |}
  | assign_MODEL =>
      inr {| GROQ_API_KEY := GROQ_API_KEY st; client := client st;
             MODEL := Some "llama-3.3-70b-versatile"; app := app st;
             serving := serving st |}
  | assign_app =>
      inr {| GROQ_API_KEY := GROQ_API_KEY st; client := client st;
             MODEL := MODEL st; app := Some []; serving := serving st |}
  | app_route r =>
      inr {| GROQ_API_KEY := GROQ_API_KEY st; client := client st;
             MODEL := MODEL st;
             app := option_map (fun rs => (rs ++ [r])%list) (app st);
             serving := serving st |}
  | run_if_main =>
      inr {| GROQ_API_KEY := GROQ_API_KEY st; client := client st;
             MODEL := MODEL st; app := app st;
             serving := is_main || serving st |}
  end.

(** Runs statements until one raises: the exception, if any, and the
    state reached. *)
Fixpoint run (getenv : string -> option string) (is_main : bool)
    (body : list stmt) (st : module_state) : option exn * module_state :=
  match body with
  | [] => (None, st)
  | s :: rest =>
      match exec getenv is_main s st with
      | inl e => (Some e, st)
      | inr st' => run getenv is_main rest st'
      end
  end.

Definition import_module (getenv : string -> option string) (is_main : bool)
  : option exn * module_state :=
  run getenv is_main module_body initial.

Definition routes (st : module_state) : list route :=
  match app st with
  | Some rs => rs
  | None => []
  end.

End Startup.

(* ------------------------------------------------------------------ *)
(** ** The [/analyze] handler: lines 31-141 of [app.py] *)
(* ------------------------------------------------------------------ *)

Module App.
Import PyStr Py.

(** *** Responses, the request and the outside world *)

(** What a view returns to Flask: the payload given to [jsonify] and the
    status code (200 when the view gives none). *)
Record response : Type := { body : value; status : Z }.

Definition jsonify (payload : value) (code : Z) : response :=
  {| body := payload; status := code |}.

Definition error_json (msg : string) : value := VDict [("error", VStr msg)].

(** [request.get_json(force=True)]: the decoded body, or the exception
    Flask raises for a body that does not decode. *)
Inductive request : Type :=
| Body (data : value)
| Undecodable (e : exn).

(** The arguments of [client.chat.completions.create]. *)
Record chat_request : Type :=
  { model : string;
    system_content : string;
    user_content : string;
    temperature : PyFloat.float;
    max_tokens : Z }.

(** One choice of a completion: [choice.message.content]. *)
Record choice : Type := { content : option string }.

(** The outcome of one call of the endpoint: a completion with its
    choices, or an exception (a subclass of [Exception]). *)
Inductive api_result : Type :=
| ApiReturns (choices : list choice)
| ApiRaises (e : exn).

(** The endpoint as the handler meets it: the outcome of the call made
    in iteration [attempt] of the retry loop. *)
Definition endpoint : Type := nat -> api_result.

Inductive level : Type := WARNING | ERROR.

(** What the handler does to the outside world, in order. *)
Inductive event : Type :=
| ApiCall (r : chat_request)
| Sleep (seconds : Z)
| Log (l : level) (msg : string).

(** *** Control flow: [return] and [raise] inside the [try] body *)

Inductive flow : Type :=
| Returned (r : response)
| Raised (e : exn)
| ReturnedNone.

Inductive step (A : Type) : Type :=
| Next (a : A)
| Exit (f : flow).

Arguments Next {A} a.
Arguments Exit {A} f.

Definition bind {A B : Type} (c : step A) (k : A -> step B) : step B :=
  match c with
  | Next a => k a
  | Exit f => Exit f
  end.

Notation "x <- c ;; k" := (bind c (fun x => k))
  (at level 61, c at next level, right associativity).

(** *** Validation: lines 35-61 *)

Definition get_json (req : request) : step value :=
  match req with
  | Body data => Next data
  | Undecodable e => Exit (Raised e)
  end.

(** [data.get(key, default)]; only a dict has the method. *)
Definition get (data : value) (key : string) (default : value) : step value :=
  match data with
  | VDict d =>
      Next (match dict_get d key with
            | Some v => v
            | None => default
            end)
  | _ =>
      Exit (Raised {| class := AttributeError;
                      str := "'" ++ type_name data ++ "' object has no attribute 'get'" |})
  end.

(** [float(n)] of an integer too large for a double. *)
Definition int_too_large : exn :=
  {| class := OverflowError; str := "int too large to convert to float" |}.

Definition income_required : response :=
  jsonify (error_json "Monthly income is required.") 400.

Definition income_invalid : response :=
  jsonify (error_json "Income must be a valid positive number.") 400.

Definition expenses_required : response :=
  jsonify (error_json "At least one expense category is required.") 400.

Definition amount_invalid (category : string) : response :=
  jsonify (error_json ("Invalid amount for '" ++ category ++ "'.")) 400.

(** Lines 39-46.  The inner [except (ValueError, TypeError)] catches what
    [float] raises of these two classes and the [ValueError] raised for a
    negative value; any other exception leaves the block. *)
Definition validate_income (income : value) : step PyFloat.float :=
  if is_none income || str_strip_is_empty income then
    Exit (Returned income_required)
  else
    match float income with
    | inl income =>
        if PyFloat.ltb income PyFloat.pos_zero then Exit (Returned income_invalid)
        else Next income
    | inr FloatValueError | inr FloatTypeError => Exit (Returned income_invalid)
    | inr FloatOverflowError => Exit (Raised int_too_large)
    end.

(** Lines 53-61: the loop over [expenses.items()]. *)
Fixpoint parse_expenses (entries : dict value) (parsed_expenses : dict PyFloat.float)
  : step (dict PyFloat.float) :=
  match entries with
  | [] => Next parsed_expenses
  | (category, amount) :: rest =>
      match (if truthy amount then float amount else inl PyFloat.pos_zero) with
      | inl val =>
          if PyFloat.ltb val PyFloat.pos_zero then
            Exit (Returned (amount_invalid category))
          else parse_expenses rest (dict_set parsed_expenses category val)
      | inr FloatValueError | inr FloatTypeError =>
          Exit (Returned (amount_invalid category))
      | inr FloatOverflowError => Exit (Raised int_too_large)
      end
  end.

(** Lines 49-61. *)
Definition validate_expenses (expenses : value) : step (dict PyFloat.float) :=
  if negb (isinstance_dict expenses) || negb (truthy expenses) then
    Exit (Returned expenses_required)
  else parse_expenses (items expenses) [].

(** Lines 35-61: the validated income and the parsed expenses, unless the
    handler returns or raises before. *)
Definition validate (req : request) : step (PyFloat.float * dict PyFloat.float) :=
  data <- get_json req ;;
  income <- get data "income" VNone ;;
  income <- validate_income income ;;
  expenses <- get data "expenses" (VDict []) ;;
  parsed_expenses <- validate_expenses expenses ;;
  Next (income, parsed_expenses).

(** *** The prompt: lines 63-101 *)

Definition expense_line (entry : string * PyFloat.float) : string :=
  let '(cat, amt) := entry in
  "  - " ++ title (replace "_" " " cat) ++ ": â‚¹" ++ PyFloat.format_2f amt.

Definition expense_lines (parsed_expenses : dict PyFloat.float) : string :=
  join nl (List.map expense_line parsed_expenses).

Definition total_expenses (parsed_expenses : dict PyFloat.float) : PyFloat.float :=
  PyFloat.sum (values parsed_expenses).

Definition prompt_head : string :=
  "You are PocketSmart AI â€” a friendly, expert personal-finance advisor.

A user has shared the following monthly financial data:

Monthly Income : â‚¹".

Definition prompt_total : string :=
  "
Total Expenses : â‚¹".

Definition prompt_remaining : string :=
  "
Remaining      : â‚¹".

Definition prompt_breakdown : string :=
  "

Expense Breakdown:
".

Definition prompt_tail : string :=
  "

Based on this data, provide a comprehensive yet easy-to-read budget analysis.
Structure your response with these sections using markdown headings (##):

## ðŸ“Š Budget Overview
Summarize income vs. expenses and the current financial health.

## ðŸ’¡ Smart Saving Tips
Give 4-5 specific, actionable tips to reduce spending in the categories listed.

## ðŸ“ˆ Better Spending Strategies
Suggest how to reallocate money for better value (e.g., invest, emergency fund).

## ðŸŽ¯ Recommended Monthly Budget
Provide an ideal budget split (table format) for someone with this income level.

## âš ï¸ Warnings
Flag any concerning patterns (overspending, no savings, etc.).

Keep the tone encouraging and practical. Use bullet points and emojis for readability.
".

Definition prompt (income : PyFloat.float) (parsed_expenses : dict PyFloat.float)
  : string :=
  prompt_head ++ PyFloat.format_2f income
    ++ prompt_total ++ PyFloat.format_2f (total_expenses parsed_expenses)
    ++ prompt_remaining
    ++ PyFloat.format_2f (PyFloat.sub income (total_expenses parsed_expenses))
    ++ prompt_breakdown ++ expense_lines parsed_expenses
    ++ prompt_tail.

(** *** The call with retries: lines 104-134 *)

Definition MODEL : string := "llama-3.3-70b-versatile".

Definition max_retries : nat := 3.

Definition create_args (prompt : string) : chat_request :=
  {| model := MODEL;
     system_content :=
       "You are PocketSmart AI, an expert personal-finance advisor. Respond with well-structured markdown.";
     user_content := prompt;
     temperature := PyFloat.of_decimal false 7 (-1);
     max_tokens := 2048 |}.

(** Lines 107-119, the body of the inner [try]: the call, then
    [response.choices[0].message.content]. *)
Definition create_and_read (r : api_result) : option string + exn :=
  match r with
  | ApiReturns (c :: _) => inl (content c)
  | ApiReturns [] => inr {| class := IndexError; str := "list index out of range" |}
  | ApiRaises e => inr e
  end.

Definition advice_json (advice : option string) : value :=
  VDict [("advice", match advice with
                    | Some s => VStr s
                    | None => VNone
                    end)].

(** The test of line 123 on [str(api_err).lower()]. *)
Definition is_rate_limit (api_err : exn) : bool :=
  let err_str := lower (str api_err) in
  contains "rate" err_str || contains "429" err_str || contains "limit" err_str.

Definition rate_limit_reached : response :=
  jsonify (error_json "Groq API rate limit reached. Please wait 30-60 seconds and try again.") 429.

(** The [for attempt in range(max_retries)] loop over the attempts left. *)
Fixpoint call_groq (prompt : string) (api : endpoint) (attempts : list nat)
  : list event * flow :=
  match attempts with
  | [] => ([], ReturnedNone)
  | attempt :: rest =>
      match create_and_read (api attempt) with
      | inl advice =>
          ([ApiCall (create_args prompt)], Returned (jsonify (advice_json advice) 200))
      | inr api_err =>
          if is_rate_limit api_err then
            if (attempt <? max_retries - 1)%nat then
              let '(trace, f) := call_groq prompt api rest in
              (ApiCall (create_args prompt)
                 :: Log WARNING ("Rate limited (attempt "
                                   ++ of_int (Z.of_nat (attempt + 1))
                                   ++ "), retrying in 10s...")
                 :: Sleep 10 :: trace, f)
            else
              ([ApiCall (create_args prompt);
                Log ERROR ("Rate limit exceeded after "
                             ++ of_int (Z.of_nat max_retries)
                             ++ " retries: " ++ str api_err)],
               Returned rate_limit_reached)
          else ([ApiCall (create_args prompt)], Raised api_err)
      end
  end.

(** *** The handler *)

(** Lines 35-134: the body of the outer [try]. *)
Definition analyze_try (req : request) (api : endpoint) : list event * flow :=
  match validate req with
  | Exit f => ([], f)
  | Next (income, parsed_expenses) =>
      call_groq (prompt income parsed_expenses) api (seq 0 max_retries)
  end.

(** The test of line 139 on [str(exc).lower()]. *)
Definition is_auth_error (exc : exn) : bool :=
  let error_msg := lower (str exc) in
  contains "api_key" error_msg || contains "invalid" error_msg
  || contains "authenticate" error_msg.

Definition invalid_api_key : response :=
  jsonify (error_json "Invalid API key. Please check your GROQ_API_KEY in the .env file.") 401.

Definition something_went_wrong : response :=
  jsonify (error_json "Something went wrong while generating advice. Please try again.") 500.

(** Lines 136-141: the outer [except Exception]. *)
Definition handle_exception (exc : exn) : list event * response :=
  ([Log ERROR ("Analysis error: " ++ str exc)],
   if is_auth_error exc then invalid_api_key else something_went_wrong).

(** [analyze()]: the events of one request and the response handed to
    Flask ([None] when the view returns [None]). *)
Definition analyze (req : request) (api : endpoint) : list event * option response :=
  let '(trace, f) := analyze_try req api in
  match f with
  | Returned r => (trace, Some r)
  | ReturnedNone => (trace, None)
  | Raised exc =>
      let '(logged, r) := handle_exception exc in
      ((trace ++ logged)%list, Some r)
  end.

(** *** Readings of a trace *)

Definition is_call (e : event) : bool :=
  match e with
  | ApiCall _ => true
  | _ => false
  end.

Definition is_log (e : event) : bool :=
  match e with
  | Log _ _ => true
  | _ => false
  end.

(** The number of calls of the endpoint. *)
Definition calls (trace : list event) : nat := List.length (filter is_call trace).

(** The calls and sleeps, without the log records. *)
Definition schedule (trace : list event) : list event :=
  filter (fun e => negb (is_log e)) trace.

(** The prompts sent, one per call. *)
Definition prompts (trace : list event) : list string :=
  flat_map (fun e => match e with
                     | ApiCall r => [user_content r]
                     | _ => []
                     end) trace.

(** [n] calls with a sleep of [seconds] between consecutive ones. *)
Fixpoint spaced_calls (r : chat_request) (seconds : Z) (n : nat) : list event :=
  match n with
  | O => []
  | S O => [ApiCall r]
  | S m => ApiCall r :: Sleep seconds :: spaced_calls r seconds m
  end.

(** The attempt, as the inner [except] sees it, failed with a rate-limit
    error. *)
Definition rate_limited (r : api_result) : bool :=
  match create_and_read r with
  | inl _ => false
  | inr api_err => is_rate_limit api_err
  end.

End App.

(* ------------------------------------------------------------------ *)
(** ** Predicates of the statements below *)
(* ------------------------------------------------------------------ *)

Module Props.
Import Py App.

(** A payload of the shape [{"error": msg}]. *)
Definition is_error_json (v : value) : bool :=
  match v with
  | VDict [(k, VStr _)] => String.eqb k "error"
  | _ => false
  end.

(** A payload that is a JSON object. *)
Definition is_json_object (v : value) : bool := isinstance_dict v.

(** The amount the loop of lines 54-61 works with: [float(amount)] for a
    true amount, [0.0] for a false one. *)
Definition converted (amount : value) : PyFloat.float + float_error :=
  if truthy amount then float amount else inl PyFloat.pos_zero.

(** A true amount that [float] refuses with [ValueError] or [TypeError],
    or turns into a negative number. *)
Definition amount_rejected (amount : value) : Prop :=
  truthy amount = true /\
  (float amount = inr FloatValueError \/
   float amount = inr FloatTypeError \/
   exists x, float amount = inl x /\ PyFloat.ltb x PyFloat.pos_zero = true).

(** A true amount on which [float] raises [OverflowError]. *)
Definition amount_overflows (amount : value) : Prop :=
  truthy amount = true /\ float amount = inr FloatOverflowError.

(** An entry of [expenses] and the entry of [parsed_expenses] made of it. *)
Definition accepted (entry : string * value) (parsed : string * PyFloat.float) : Prop :=
  fst parsed = fst entry /\
  converted (snd entry) = inl (snd parsed) /\
  PyFloat.ltb (snd parsed) PyFloat.pos_zero = false.

(** A float that is not below zero in sign: what the running total of
    accepted amounts always is. *)
Definition unsigned (x : PyFloat.float) : Prop :=
  match x with
  | S754_zero true | S754_infinity true | S754_finite true _ _ => False
  | _ => True
  end.

(** An accepted amount: not negative, though it may be [-0.0] or NaN. *)
Definition not_negative (x : PyFloat.float) : Prop :=
  match x with
  | S754_infinity true | S754_finite true _ _ => False
  | _ => True
  end.

(** A value whose text, if it is a string, is ASCII. *)
Definition ascii_text (v : value) : Prop :=
  match v with
  | VStr s => PyStr.is_ascii s = true
  | _ => True
  end.

(** A double that holds the integer [z] exactly. *)
Definition holds (z : Z) (x : PyFloat.float) : Prop :=
  match x with
  | S754_zero s => s = false /\ z = 0
  | S754_finite s m e => s = (z <? 0) /\ e <= 0 /\ Z.pos m = Z.abs z * 2 ^ (- e)
  | _ => False
  end.

(** An integer amount of money as it is written by hand: a minus sign
    if it is negative, its digits in groups of three, two zero decimals. *)
Definition figure (z : Z) : string :=
  (if z <? 0 then "-" else "")
    ++ PyFloat.group_thousands (PyStr.of_int (Z.abs z)) ++ ".00".

(** Expenses whose amounts are JSON integers, and their sum. *)
Definition integer_expenses (amounts : list (string * Z)) : dict value :=
  List.map (fun e => (fst e, VInt (snd e))) amounts.

Definition integer_total (amounts : list (string * Z)) : Z :=
  fold_right (fun e total => snd e + total) 0 amounts.

(** A word: one or more ASCII letters. *)
Fixpoint letters (s : string) : bool :=
  match s with
  | EmptyString => true
  | String c r => PyStr.is_cased c && letters r
  end.

Definition is_word (w : string) : bool :=
  match w with
  | EmptyString => false
  | _ => letters w
  end.

(** A word with its first letter in upper case and the others in lower
    case. *)
Definition capitalize (w : string) : string :=
  match w with
  | EmptyString => EmptyString
  | String c r => String (PyStr.to_upper c) (PyStr.lower r)
  end.

(** The number of line feeds in a text: one less than its number of
    lines. *)
Fixpoint line_feeds (s : string) : nat :=
  match s with
  | EmptyString => 0%nat
  | String c r => ((if Ascii.eqb c (PyStr.chr 10) then 1 else 0) + line_feeds r)%nat
  end.

(** A character other than the line feed. *)
Definition not_feed (c : ascii) : Prop := Ascii.eqb c (PyStr.chr 10) = false.

End Props.

(* ------------------------------------------------------------------ *)
(** ** Concrete requests and endpoint behaviours *)
(* ------------------------------------------------------------------ *)

Module Samples.
Import Py App.

Definition budget : request :=
  Body (VDict [("income", VInt 50000);
               ("expenses", VDict [("rent", VInt 15000);
                                   ("food_and_dining", VStr "4500.5");
                                   ("misc", VStr "")])]).

(** What validation makes of [budget]: 50000.0, and 15000.0, 4500.5 and
    0.0 for the three categories. *)
Definition budget_income : PyFloat.float :=
  S754_finite false 6871947673600000 (-37).

Definition budget_parsed : dict PyFloat.float :=
  [("rent", S754_finite false 8246337208320000 (-39));
   ("food_and_dining", S754_finite false 4948352080805888 (-40));
   ("misc", S754_zero false)].

Definition blank_amount : request :=
  Body (VDict [("income", VInt 1000); ("expenses", VDict [("rent", VStr "")])]).

Definition negative_amount : request :=
  Body (VDict [("income", VInt 1000);
               ("expenses", VDict [("rent", VInt 400); ("food", VStr "-25")])]).

Definition huge_income : request :=
  Body (VDict [("income", VInt (10 ^ 400)); ("expenses", VDict [("rent", VInt 1000)])]).

Definition huge_negative_income : request :=
  Body (VDict [("income", VInt (- 10 ^ 400)); ("expenses", VDict [("rent", VInt 1000)])]).

Definition not_an_object : request := Body (VList []).

(** What [get_json] raises for the body [{"income": "\q"}] when the
    application runs in debug mode, as line 148 starts it: werkzeug's
    [BadRequest] around the message of the JSON decoder. *)
Definition bad_escape : exn :=
  {| class := OtherException "BadRequest";
     str := "400 Bad Request: Failed to decode JSON object: Invalid \escape: line 1 column 13 (char 12)" |}.

Definition malformed_body : request := Undecodable bad_escape.

Definition advice : choice := {| content := Some "## Budget Overview" |}.

Definition advises : endpoint := fun _ => ApiReturns [advice].

Definition rate_limit_error : exn :=
  {| class := OtherException "RateLimitError";
     str := "Error code: 429 - Rate limit reached for model" |}.

Definition always_limited : endpoint := fun _ => ApiRaises rate_limit_error.

Definition limited_twice : endpoint :=
  fun attempt => if (attempt <? 2)%nat then ApiRaises rate_limit_error
                 else ApiReturns [advice].

Definition authentication_error : exn :=
  {| class := OtherException "AuthenticationError";
     str := "Error code: 401 - Invalid API Key" |}.

Definition refuses_key : endpoint := fun _ => ApiRaises authentication_error.

Definition connection_error : exn :=
  {| class := OtherException "APIConnectionError"; str := "Connection error." |}.

Definition unreachable : endpoint := fun _ => ApiRaises connection_error.

End Samples.

(* ------------------------------------------------------------------ *)
(** ** Further readings of a run *)
(* ------------------------------------------------------------------ *)

Module Readings.
Import PyStr Py App.

(** The seconds a run spends in [time.sleep]. *)
Definition slept (trace : list event) : Z :=
  fold_right (fun e total => match e with
                             | Sleep seconds => seconds + total
                             | _ => total
                             end) 0 trace.

(** The records a run writes to [app.logger] at one level, in order. *)
Definition logged (l : level) (trace : list event) : list string :=
  flat_map (fun e => match e, l with
                     | Log WARNING msg, WARNING => [msg]
                     | Log ERROR msg, ERROR => [msg]
                     | _, _ => []
                     end) trace.

(** The warning of line 125 for the loop variable [attempt]. *)
Definition retry_warning (attempt : nat) : string :=
  "Rate limited (attempt " ++ of_int (Z.of_nat (attempt + 1)) ++ "), retrying in 10s...".

(** How often a character occurs in a text. *)
Fixpoint occurrences (c : ascii) (s : string) : nat :=
  match s with
  | EmptyString => 0%nat
  | String c' r => ((if Ascii.eqb c' c then 1 else 0) + occurrences c r)%nat
  end.

(** A completion without choices, after [n] rate-limited attempts. *)
Definition empty_after (n : nat) : endpoint :=
  fun attempt => if (attempt <? n)%nat then ApiRaises Samples.rate_limit_error
                 else ApiReturns [].

(** An error whose text passes both the rate-limit test of line 123 and
    the test of line 139. *)
Definition invalid_key_rate_error : exn :=
  {| class := OtherException "APIStatusError";
     str := "Invalid API Key: rate limit policy not found" |}.

Definition refuses_with_rate : endpoint := fun _ => ApiRaises invalid_key_rate_error.

(** An income of blanks: a space, a tab and the separator FS, which
    [str.strip] removes. *)
Definition blank_income : string :=
  String " " (String (chr 9) (String (chr 28) EmptyString)).

(** A number after the separator FS, which [str.strip] removes and
    [float] does not skip. *)
Definition padded_income : string := String (chr 28) "5".

(** A body whose income is the string ["nan"]. *)
Definition nan_income : request :=
  Body (VDict [("income", VStr "nan"); ("expenses", VDict [("rent", VInt 1000)])]).

(** A body whose second amount is negative and whose third is an integer
    too large for a double. *)
Definition negative_then_huge : dict value :=
  [("income", VInt 1000);
   ("expenses", VDict [("rent", VInt 400); ("food", VInt (-25));
                       ("loan", VInt (10 ^ 400))])].

(** A body whose second amount is an integer too large for a double and
    whose third is negative. *)
Definition huge_then_negative : dict value :=
  [("income", VInt 1000);
   ("expenses", VDict [("rent", VInt 400); ("loan", VInt (10 ^ 400));
                       ("food", VInt (-25))])].

(** A budget in whole rupees whose expenses exceed the income. *)
Definition overspent : dict value :=
  [("income", VInt 20000);
   ("expenses", VDict [("rent", VInt 15000); ("food_and_dining", VInt 6250);
                       ("misc", VInt 0)])].

(** A body whose first amount is a number after the separator FS and
    whose second is negative. *)
Definition padded_then_negative : dict value :=
  [("income", VInt 1000);
   ("expenses", VDict [("rent", VStr padded_income); ("food", VInt (-1))])].

End Readings.

(* ------------------------------------------------------------------ *)
(** ** Exceptions that leave the [try] body *)
(* ------------------------------------------------------------------ *)

Section Exceptions.
Import Py App Props.

Lemma handle_exception_status (exc : exn) :
  status (snd (handle_exception exc)) = (if is_auth_error exc then 401 else 500).
Proof.
  unfold handle_exception; cbn [snd].
  destruct (is_auth_error exc); reflexivity.
Qed.

Lemma handle_exception_error_json (exc : exn) :
  is_error_json (body (snd (handle_exception exc))) = true.
Proof.
  unfold handle_exception; cbn [snd].
  destruct (is_auth_error exc); reflexivity.
Qed.

(** C1 (the code departs from it): the test of line 139 looks for the
    word [invalid] anywhere in the text of the exception, so an exception
    that has nothing to do with authentication passes it.  A body that
    does not decode, here [{"income": "\q"}] with the application in
    debug mode as line 148 starts it, makes [get_json] raise [BadRequest]
    before anything is validated or called; the handler answers it 401
    "Invalid API key", not the 500 of "anything else". *)
Theorem malformed_body_is_answered_401 (api : endpoint) :
  analyze Samples.malformed_body api
    = ([Log ERROR "Analysis error: 400 Bad Request: Failed to decode JSON object: Invalid \escape: line 1 column 13 (char 12)"],
       Some invalid_api_key)
  /\ status invalid_api_key = 401
  /\ body invalid_api_key
     = error_json "Invalid API key. Please check your GROQ_API_KEY in the .env file."
  /\ calls (fst (analyze Samples.malformed_body api)) = 0%nat.
Proof.
  repeat split; vm_compute; reflexivity.
Qed.

(** C2 (the code departs from it): an integer income beyond the range of
    a double makes [float] raise [OverflowError], which the inner
    [except (ValueError, TypeError)] does not catch; the request ends in
    the generic 500 instead of passing validation (when positive) or
    getting the 400 of an invalid income (when negative). *)
Theorem huge_income_is_answered_500 (api : endpoint) :
  analyze Samples.huge_income api
    = ([Log ERROR "Analysis error: int too large to convert to float"],
       Some something_went_wrong)
  /\ analyze Samples.huge_negative_income api
    = ([Log ERROR "Analysis error: int too large to convert to float"],
       Some something_went_wrong)
  /\ status something_went_wrong = 500.
Proof.
  repeat split; vm_compute; reflexivity.
Qed.

End Exceptions.

(* ------------------------------------------------------------------ *)
(** ** Start-up *)
(* ------------------------------------------------------------------ *)

Section StartupFacts.
Import Py Startup.

(** C10: when [os.getenv("GROQ_API_KEY")] on line 12 (the environment as
    [load_dotenv()] leaves it) is unset or empty, importing the module
    raises [RuntimeError] at line 14: [app] does not exist yet, no route
    is registered and [app.run] is never entered. *)
Theorem missing_key_stops_import
    (getenv : string -> option string) (is_main : bool) :
  getenv "GROQ_API_KEY" = None \/ getenv "GROQ_API_KEY" = Some "" ->
  exists st,
    import_module getenv is_main
      = (Some {| class := RuntimeError;
                 str := "GROQ_API_KEY not found. Please set it in your .env file." |},
         st)
    /\ app st = None
    /\ routes st = []
    /\ serving st = false.
Proof.
  intros Hkey.
  unfold import_module, module_body.
  cbn [run exec initial GROQ_API_KEY client MODEL app serving].
  assert (Hnot : not_key (getenv "GROQ_API_KEY") = true)
    by (destruct Hkey as [-> | ->]; reflexivity).
  rewrite Hnot.
  eexists; split; [reflexivity |].
  repeat split.
Qed.

Lemma missing_key_stops_import_witness :
  ((fun _ : string => @None string) "GROQ_API_KEY" = None
   \/ (fun _ : string => @None string) "GROQ_API_KEY" = Some "")
  /\ exists st,
       import_module (fun _ => None) true
         = (Some {| class := RuntimeError;
                    str := "GROQ_API_KEY not found. Please set it in your .env file." |},
            st)
       /\ app st = None
       /\ routes st = []
       /\ serving st = false.
Proof.
  split; [left; reflexivity |].
  apply (missing_key_stops_import (fun _ => None) true).
  left; reflexivity.
Defined.

End StartupFacts.

(* ------------------------------------------------------------------ *)
(** ** The retry loop *)
(* ------------------------------------------------------------------ *)

Section RetryLoop.
Import Py App Props.

Variable p : string.
Variable api : endpoint.

Lemma spaced_calls_succ (r : chat_request) (seconds : Z) (n : nat) :
  (0 < n)%nat ->
  spaced_calls r seconds (S n) = ApiCall r :: Sleep seconds :: spaced_calls r seconds n.
Proof.
  destruct n; [lia | reflexivity].
Qed.

(** The loop from attempt [a] on, with [n] attempts left: the invariant
    behind the schedule of calls and sleeps. *)
Lemma call_groq_schedule :
  forall (n a : nat), (a + n = max_retries)%nat ->
    let trace := fst (call_groq p api (seq a n)) in
    schedule trace = spaced_calls (create_args p) 10 (calls trace)
    /\ (calls trace <= n)%nat
    /\ ((0 < n)%nat -> (0 < calls trace)%nat)
    /\ (forall k, (S k < calls trace)%nat -> rate_limited (api (a + k)%nat) = true)
    /\ Forall (eq p) (prompts trace).
Proof.
  induction n as [| n IH]; intros a Ha.
  - cbn. repeat split; auto; intros; lia.
  - cbn [seq call_groq].
    destruct (create_and_read (api a)) as [advice | api_err] eqn:Hread.
    + cbn. repeat split; auto; intros; lia.
    + destruct (is_rate_limit api_err) eqn:Hrate.
      * destruct (a <? max_retries - 1)%nat eqn:Hlast.
        -- specialize (IH (S a) ltac:(lia)).
           destruct (call_groq p api (seq (S a) n)) as [t f].
           cbn [fst] in IH |- *.
           destruct IH as (Hsched & Hle & Hpos & Hprev & Hprompts).
           apply Nat.ltb_lt in Hlast.
           assert (Hn : (0 < n)%nat) by (unfold max_retries in *; lia).
           specialize (Hpos Hn).
           unfold calls, schedule, prompts in *.
           cbn [filter is_call is_log negb Datatypes.length flat_map app user_content create_args].
           repeat split.
           ++ fold (calls t) in *. rewrite Hsched.
              symmetry. apply spaced_calls_succ. exact Hpos.
           ++ lia.
           ++ lia.
           ++ intros [| k] Hk.
              ** rewrite Nat.add_0_r. unfold rate_limited. rewrite Hread. exact Hrate.
              ** rewrite Nat.add_succ_r. apply Hprev. lia.
           ++ constructor; [reflexivity | exact Hprompts].
        -- cbn. repeat split; auto; intros; lia.
      * cbn. repeat split; auto; intros; lia.
Qed.

(** The attempt that settles the loop: every attempt before it was rate
    limited, and its own outcome decides how the loop ends. *)
Lemma call_groq_settles :
  forall (n a : nat), (a + n = max_retries)%nat -> (0 < n)%nat ->
    exists k, (a <= k < max_retries)%nat
      /\ calls (fst (call_groq p api (seq a n))) = S (k - a)
      /\ (forall j, (a <= j < k)%nat -> rate_limited (api j) = true)
      /\ match create_and_read (api k) with
         | inl advice =>
             snd (call_groq p api (seq a n))
             = Returned (jsonify (advice_json advice) 200)
         | inr api_err =>
             if is_rate_limit api_err then
               k = (max_retries - 1)%nat
               /\ snd (call_groq p api (seq a n)) = Returned rate_limit_reached
             else snd (call_groq p api (seq a n)) = Raised api_err
         end.
Proof.
  induction n as [| n IH]; intros a Ha Hn; [lia |].
  cbn [seq call_groq].
  destruct (create_and_read (api a)) as [advice | api_err] eqn:Hread.
  - exists a. rewrite Hread, Nat.sub_diag. unfold max_retries in *.
    split; [lia |]. split; [reflexivity |]. split; [intros j Hj; lia | reflexivity].
  - destruct (is_rate_limit api_err) eqn:Hrate.
    + destruct (a <? max_retries - 1)%nat eqn:Hlast.
      * apply Nat.ltb_lt in Hlast.
        destruct (IH (S a)) as (k & Hk & Hcalls & Hprev & Hend);
          [lia | unfold max_retries in *; lia |].
        destruct (call_groq p api (seq (S a) n)) as [t f].
        cbn [fst snd] in *.
        exists k. split; [lia |]. split; [| split].
        -- unfold calls in *. cbn [filter is_call Datatypes.length].
           rewrite Hcalls. lia.
        -- intros j Hj. destruct (Nat.eq_dec j a) as [-> | Hne].
           ++ unfold rate_limited. rewrite Hread. exact Hrate.
           ++ apply Hprev. lia.
        -- exact Hend.
      * apply Nat.ltb_ge in Hlast.
        exists a. rewrite Hread, Hrate, Nat.sub_diag. unfold max_retries in *.
        split; [lia |]. split; [reflexivity |]. split; [intros j Hj; lia |].
        split; [lia | reflexivity].
    + exists a. rewrite Hread, Hrate, Nat.sub_diag. unfold max_retries in *.
      split; [lia |]. split; [reflexivity |]. split; [intros j Hj; lia | reflexivity].
Qed.

End RetryLoop.

(* ------------------------------------------------------------------ *)
(** ** Validation and the shape of a run *)
(* ------------------------------------------------------------------ *)

Section Runs.
Import Py App Props.

Lemma parse_expenses_exit :
  forall (entries : dict value) (parsed : dict PyFloat.float) (f : flow),
    parse_expenses entries parsed = Exit f ->
    (exists category, f = Returned (amount_invalid category))
    \/ f = Raised int_too_large.
Proof.
  induction entries as [| [category amount] rest IH]; intros parsed f; cbn [parse_expenses].
  - discriminate.
  - destruct (if truthy amount then float amount else inl PyFloat.pos_zero)
      as [val | []].
    + destruct (PyFloat.ltb val PyFloat.pos_zero).
      * intros [= <-]. left; eauto.
      * apply IH.
    + intros [= <-]. left; eauto.
    + intros [= <-]. left; eauto.
    + intros [= <-]. right; reflexivity.
Qed.

(** Validation ends the request only with a 400 error JSON or with an
    exception. *)
Lemma validate_exit (req : request) (f : flow) :
  validate req = Exit f ->
  (exists r, f = Returned r /\ status r = 400 /\ is_error_json (body r) = true)
  \/ (exists e, f = Raised e).
Proof.
  unfold validate, get_json.
  destruct req as [data | e]; cbn [bind]; [| intros [= <-]; right; eauto].
  destruct data; cbn [get bind]; try (intros [= <-]; right; eauto; fail).
  unfold validate_income.
  destruct (is_none _ || str_strip_is_empty _);
    [cbn [bind]; intros [= <-]; left; eexists; repeat split |].
  destruct (float _) as [income | []]; cbn [bind];
    try (intros [= <-]; first [ right; eauto; fail | left; eexists; repeat split ]; fail).
  destruct (PyFloat.ltb income PyFloat.pos_zero); cbn [bind];
    [intros [= <-]; left; eexists; repeat split |].
  unfold validate_expenses.
  destruct (negb (isinstance_dict _) || negb (truthy _)); cbn [bind];
    [intros [= <-]; left; eexists; repeat split |].
  destruct (parse_expenses _ _) as [parsed | g] eqn:Hparse; cbn [bind]; [discriminate |].
  intros [= <-].
  apply parse_expenses_exit in Hparse.
  destruct Hparse as [[category ->] | ->];
    [left; eexists; repeat split | right; eauto].
Qed.

Lemma analyze_try_validated (req : request) (api : endpoint)
    (income : PyFloat.float) (parsed : dict PyFloat.float) :
  validate req = Next (income, parsed) ->
  analyze_try req api = call_groq (prompt income parsed) api (seq 0 max_retries).
Proof.
  intros Hv. unfold analyze_try. rewrite Hv. reflexivity.
Qed.

Lemma analyze_try_exit (req : request) (api : endpoint) (f : flow) :
  validate req = Exit f -> analyze_try req api = ([], f).
Proof.
  intros Hv. unfold analyze_try. rewrite Hv. reflexivity.
Qed.

(** The events of [analyze] are those of the [try] body, then the log
    record of the outer [except] when an exception escaped. *)
Lemma analyze_trace (req : request) (api : endpoint) :
  exists logged,
    fst (analyze req api) = (fst (analyze_try req api) ++ logged)%list
    /\ Forall (fun e => is_log e = true) logged.
Proof.
  unfold analyze.
  destruct (analyze_try req api) as [trace [r | exc |]]; cbn [fst].
  - exists []. rewrite app_nil_r. split; [reflexivity | constructor].
  - exists [Log ERROR ("Analysis error: " ++ str exc)].
    split; [reflexivity | repeat constructor].
  - exists []. rewrite app_nil_r. split; [reflexivity | constructor].
Qed.

Lemma calls_app_logs (trace logged : list event) :
  Forall (fun e => is_log e = true) logged ->
  calls (trace ++ logged) = calls trace
  /\ schedule (trace ++ logged) = schedule trace
  /\ prompts (trace ++ logged) = prompts trace.
Proof.
  intros Hlog. unfold calls, schedule, prompts.
  rewrite !filter_app, flat_map_app.
  induction Hlog as [| e l He Hl IH].
  - cbn. rewrite !app_nil_r. auto.
  - destruct e; try discriminate. cbn. exact IH.
Qed.

Lemma analyze_readings (req : request) (api : endpoint) :
  calls (fst (analyze req api)) = calls (fst (analyze_try req api))
  /\ schedule (fst (analyze req api)) = schedule (fst (analyze_try req api))
  /\ prompts (fst (analyze req api)) = prompts (fst (analyze_try req api)).
Proof.
  destruct (analyze_trace req api) as (logged & -> & Hlog).
  apply calls_app_logs; exact Hlog.
Qed.

Lemma analyze_response (req : request) (api : endpoint) :
  snd (analyze req api)
  = match snd (analyze_try req api) with
    | Returned r => Some r
    | Raised exc => Some (snd (handle_exception exc))
    | ReturnedNone => None
    end.
Proof.
  unfold analyze.
  destruct (analyze_try req api) as [trace [r | exc |]]; reflexivity.
Qed.

(** C4: the endpoint is called at most three times in a request; call
    number [k + 2] is made only after call number [k + 1] failed with a
    rate-limit error and fewer than three calls had been made; between
    two consecutive calls the handler sleeps once, for 10 seconds, and it
    sleeps at no other time.  A request that passes validation makes at
    least one call, any other makes none. *)
Theorem retry_schedule (req : request) (api : endpoint) :
  (calls (fst (analyze req api)) <= 3)%nat
  /\ (forall k, (S k < calls (fst (analyze req api)))%nat ->
        rate_limited (api k) = true /\ (S k < 3)%nat)
  /\ (exists r, schedule (fst (analyze req api))
                = spaced_calls r 10 (calls (fst (analyze req api))))
  /\ match validate req with
     | Next _ => (1 <= calls (fst (analyze req api)))%nat
     | Exit _ => calls (fst (analyze req api)) = 0%nat
     end.
Proof.
  destruct (analyze_readings req api) as (-> & -> & _).
  destruct (validate req) as [[income parsed] | f] eqn:Hv.
  - rewrite (analyze_try_validated _ api _ _ Hv).
    destruct (call_groq_schedule (prompt income parsed) api 3 0 eq_refl)
      as (Hsched & Hle & Hpos & Hprev & _).
    change (seq 0 max_retries) with (seq 0 3).
    repeat split.
    + exact Hle.
    + apply (Hprev k). assumption.
    + lia.
    + eexists; exact Hsched.
    + apply Hpos; lia.
  - rewrite (analyze_try_exit _ api _ Hv). cbn [fst].
    change (calls []) with 0%nat.
    split; [lia |].
    split; [intros k Hk; lia |].
    split; [exists (create_args ""); reflexivity | reflexivity].
Qed.

Lemma retry_schedule_witness :
  (calls (fst (analyze Samples.budget Samples.limited_twice)) <= 3)%nat
  /\ (forall k, (S k < calls (fst (analyze Samples.budget Samples.limited_twice)))%nat ->
        rate_limited (Samples.limited_twice k) = true /\ (S k < 3)%nat)
  /\ (exists r, schedule (fst (analyze Samples.budget Samples.limited_twice))
                = spaced_calls r 10 (calls (fst (analyze Samples.budget Samples.limited_twice))))
  /\ match validate Samples.budget with
     | Next _ => (1 <= calls (fst (analyze Samples.budget Samples.limited_twice)))%nat
     | Exit _ => calls (fst (analyze Samples.budget Samples.limited_twice)) = 0%nat
     end.
Proof.
  exact (retry_schedule Samples.budget Samples.limited_twice).
Defined.

(** The whole [try] body of a validated request, read off the attempt
    that settles the loop. *)
Lemma analyze_settles (req : request) (api : endpoint)
    (income : PyFloat.float) (parsed : dict PyFloat.float) :
  validate req = Next (income, parsed) ->
  exists k, (k < 3)%nat
    /\ calls (fst (analyze req api)) = S k
    /\ (forall j, (j < k)%nat -> rate_limited (api j) = true)
    /\ match create_and_read (api k) with
       | inl advice =>
           snd (analyze req api) = Some (jsonify (advice_json advice) 200)
       | inr api_err =>
           if is_rate_limit api_err then
             k = 2%nat /\ snd (analyze req api) = Some rate_limit_reached
           else snd (analyze req api) = Some (snd (handle_exception api_err))
       end.
Proof.
  intros Hv.
  destruct (analyze_readings req api) as (-> & _ & _).
  rewrite analyze_response, (analyze_try_validated _ api _ _ Hv).
  destruct (call_groq_settles (prompt income parsed) api 3 0 eq_refl ltac:(lia))
    as (k & Hk & Hcalls & Hprev & Hend).
  change (seq 0 max_retries) with (seq 0 3).
  exists k. unfold max_retries in *.
  split; [lia |]. split; [rewrite Hcalls; lia |].
  split; [intros j Hj; apply Hprev; lia |].
  destruct (create_and_read (api k)) as [advice | api_err].
  - rewrite Hend. reflexivity.
  - destruct (is_rate_limit api_err).
    + destruct Hend as [-> ->]. split; reflexivity.
    + rewrite Hend. reflexivity.
Qed.

(** C5: when a third call is made and fails with a rate-limit error the
    response is the 429 error JSON; a rate-limit failure of the first or
    second call is followed by the next call instead of a response; and
    no other response of the handler has status 429. *)
Theorem exhausted_retries_give_429 (req : request) (api : endpoint) :
  (calls (fst (analyze req api)) = 3%nat -> rate_limited (api 2%nat) = true ->
     snd (analyze req api) = Some rate_limit_reached
     /\ status rate_limit_reached = 429
     /\ is_error_json (body rate_limit_reached) = true)
  /\ (forall k, (k < 2)%nat -> (k < calls (fst (analyze req api)))%nat ->
        rate_limited (api k) = true ->
        (S k < calls (fst (analyze req api)))%nat)
  /\ (forall r, snd (analyze req api) = Some r -> status r = 429 ->
        calls (fst (analyze req api)) = 3%nat /\ rate_limited (api 2%nat) = true).
Proof.
  destruct (validate req) as [[income parsed] | f] eqn:Hv.
  - destruct (analyze_settles req api income parsed Hv)
      as (k & Hk & Hcalls & Hprev & Hend).
    rewrite Hcalls. unfold rate_limited in *.
    split; [| split].
    + intros [= ->] Hrl.
      destruct (create_and_read (api 2%nat)) as [advice | api_err]; [discriminate |].
      rewrite Hrl in Hend. destruct Hend as [_ ->]. repeat split.
    + intros j Hj Hlt Hrl.
      destruct (Nat.eq_dec j k) as [-> | Hne]; [| lia].
      destruct (create_and_read (api k)) as [advice | api_err]; [discriminate |].
      rewrite Hrl in Hend. lia.
    + intros r Hr Hst.
      destruct (create_and_read (api k)) as [advice | api_err] eqn:Hread.
      * rewrite Hend in Hr. injection Hr as <-. discriminate.
      * destruct (is_rate_limit api_err) eqn:Hrate.
        -- destruct Hend as [-> _]. rewrite Hread. auto.
        -- rewrite Hend in Hr.
           assert (r = snd (handle_exception api_err)) as -> by congruence.
           rewrite handle_exception_status in Hst.
           destruct (is_auth_error api_err); discriminate.
  - destruct (analyze_readings req api) as (-> & _ & _).
    rewrite analyze_response, (analyze_try_exit _ api _ Hv).
    cbn [fst snd]. change (calls []) with 0%nat.
    split; [intros; discriminate |].
    split; [intros; lia |].
    intros r Hs Hst. exfalso.
    destruct (validate_exit _ _ Hv) as [(r' & -> & H400 & _) | (e & ->)].
    + injection Hs as <-. lia.
    + assert (r = snd (handle_exception e)) as -> by congruence.
      rewrite handle_exception_status in Hst.
      destruct (is_auth_error e); discriminate.
Qed.

Lemma exhausted_retries_give_429_witness :
  calls (fst (analyze Samples.budget Samples.always_limited)) = 3%nat
  /\ rate_limited (Samples.always_limited 2%nat) = true
  /\ snd (analyze Samples.budget Samples.always_limited) = Some rate_limit_reached
  /\ status rate_limit_reached = 429
  /\ is_error_json (body rate_limit_reached) = true.
Proof.
  split; [vm_compute; reflexivity |].
  split; [vm_compute; reflexivity |].
  apply (proj1 (exhausted_retries_give_429 Samples.budget Samples.always_limited));
    vm_compute; reflexivity.
Defined.

End Runs.

(* ------------------------------------------------------------------ *)
(** ** Responses *)
(* ------------------------------------------------------------------ *)

Section Responses.
Import Py App Props.

Lemma handle_exception_body (exc : exn) :
  exists msg, body (snd (handle_exception exc)) = error_json msg.
Proof.
  unfold handle_exception; cbn [snd].
  destruct (is_auth_error exc); eexists; reflexivity.
Qed.

Lemma error_json_body (r : response) :
  is_error_json (body r) = true -> exists fields, body r = VDict fields.
Proof.
  destruct r as [[| | | | | | fields] code]; cbn; try discriminate. eauto.
Qed.

(** C7: when the call that settles a request returns a completion with a
    first choice, the response is 200 with the JSON object
    [{"advice": content}], [content] being [choices[0].message.content]
    (the attempts before it, if any, were rate limited, which is how the
    loop gets to it); and every run of [analyze] ends in a response whose
    payload is a JSON object. *)
Theorem successful_call_relays_advice :
  (forall (req : request) (api : endpoint) (income : PyFloat.float)
          (parsed : dict PyFloat.float) (k : nat) (c : choice) (cs : list choice),
      validate req = Next (income, parsed) ->
      (k < 3)%nat ->
      (forall j, (j < k)%nat -> rate_limited (api j) = true) ->
      api k = ApiReturns (c :: cs) ->
      snd (analyze req api)
      = Some {| body := VDict [("advice", match content c with
                                          | Some s => VStr s
                                          | None => VNone
                                          end)];
                status := 200 |})
  /\ (forall (req : request) (api : endpoint),
        exists fields code,
          snd (analyze req api) = Some {| body := VDict fields; status := code |}).
Proof.
  split.
  - intros req api income parsed k c cs Hv Hk Hprev Hret.
    destruct (analyze_settles req api income parsed Hv)
      as (k' & Hk' & _ & Hprev' & Hend).
    assert (Hread : create_and_read (api k) = inl (content c))
      by (rewrite Hret; reflexivity).
    destruct (Nat.lt_trichotomy k' k) as [Hlt | [-> | Hgt]].
    + specialize (Hprev k' Hlt). unfold rate_limited in Hprev.
      destruct (create_and_read (api k')) as [advice | api_err]; [discriminate |].
      rewrite Hprev in Hend. lia.
    + rewrite Hread in Hend. exact Hend.
    + specialize (Hprev' k Hgt). unfold rate_limited in Hprev'.
      rewrite Hread in Hprev'. discriminate.
  - intros req api.
    destruct (validate req) as [[income parsed] | f] eqn:Hv.
    + destruct (analyze_settles req api income parsed Hv)
        as (k & _ & _ & _ & Hend).
      destruct (create_and_read (api k)) as [advice | api_err].
      * rewrite Hend. do 2 eexists; reflexivity.
      * destruct (is_rate_limit api_err).
        -- destruct Hend as [_ ->]. do 2 eexists; reflexivity.
        -- rewrite Hend.
           destruct (handle_exception_body api_err) as (msg & Hmsg).
           destruct (snd (handle_exception api_err)) as [b code].
           cbn [body] in Hmsg. subst b. do 2 eexists; reflexivity.
    + rewrite analyze_response, (analyze_try_exit _ api _ Hv). cbn [snd].
      destruct (validate_exit _ _ Hv) as [(r & -> & _ & Herr) | (e & ->)].
      * destruct (error_json_body r Herr) as (fields & Hbody).
        destruct r as [b code]. cbn [body] in Hbody. subst b.
        do 2 eexists; reflexivity.
      * destruct (handle_exception_body e) as (msg & Hmsg).
        destruct (snd (handle_exception e)) as [b code].
        cbn [body] in Hmsg. subst b. do 2 eexists; reflexivity.
Qed.

Lemma successful_call_relays_advice_witness :
  validate Samples.budget = Next (Samples.budget_income, Samples.budget_parsed)
  /\ (forall j, (j < 2)%nat -> rate_limited (Samples.limited_twice j) = true)
  /\ Samples.limited_twice 2%nat = ApiReturns [Samples.advice]
  /\ snd (analyze Samples.budget Samples.limited_twice)
     = Some {| body := VDict [("advice", VStr "## Budget Overview")]; status := 200 |}.
Proof.
  assert (Hprev : forall j, (j < 2)%nat -> rate_limited (Samples.limited_twice j) = true).
  { intros [| [| j]] Hj; [reflexivity | reflexivity | lia]. }
  assert (Hv : validate Samples.budget
               = Next (Samples.budget_income, Samples.budget_parsed))
    by (vm_compute; reflexivity).
  split; [exact Hv |].
  split; [exact Hprev |].
  split; [reflexivity |].
  exact (proj1 successful_call_relays_advice Samples.budget Samples.limited_twice
           Samples.budget_income Samples.budget_parsed 2%nat Samples.advice []
           Hv ltac:(lia) Hprev eq_refl).
Defined.

Lemma prompts_length (trace : list event) :
  Datatypes.length (prompts trace) = calls trace.
Proof.
  unfold prompts, calls.
  induction trace as [| [r | s | l m] trace IH]; cbn; auto.
Qed.

End Responses.

(* ------------------------------------------------------------------ *)
(** ** Floats: the sign of a running total *)
(* ------------------------------------------------------------------ *)

Section Totals.
Import Py App Props.

Lemma ltb_zero_not_negative (x : PyFloat.float) :
  PyFloat.ltb x PyFloat.pos_zero = false -> not_negative x.
Proof.
  destruct x as [s | s | | s m e]; try destruct s; cbn; intros H;
    try exact I; discriminate.
Qed.

Lemma binary_round_aux_sign (s : bool) (m e : Z) (l : location) :
  match binary_round_aux PyFloat.prec PyFloat.emax s m e l with
  | S754_zero s' | S754_infinity s' | S754_finite s' _ _ => s' = s
  | S754_nan => True
  end.
Proof.
  unfold binary_round_aux.
  destruct (shr_fexp _ _ m e l) as [mrs' e'].
  destruct (shr_fexp _ _ _ e' loc_Exact) as [mrs'' e''].
  destruct (shr_m mrs''); [reflexivity | | exact I].
  destruct (e'' <=? PyFloat.emax - PyFloat.prec); reflexivity.
Qed.

Lemma binary_round_unsigned (m : positive) (e : Z) :
  unsigned (binary_round PyFloat.prec PyFloat.emax false m e).
Proof.
  unfold binary_round.
  destruct (shl_align m e _) as [mz ez].
  pose proof (binary_round_aux_sign false (Zpos mz) ez loc_Exact) as H.
  destruct (binary_round_aux _ _ false (Zpos mz) ez loc_Exact); cbn; subst; exact I.
Qed.

(** Adding an amount that is not negative to a total that is not signed
    leaves a total that is not signed. *)
Lemma add_unsigned (acc x : PyFloat.float) :
  unsigned acc -> not_negative x -> unsigned (PyFloat.add acc x).
Proof.
  destruct acc as [[] | [] | | [] ma ea]; cbn [unsigned]; intros Hacc; try contradiction;
    destruct x as [[] | [] | | [] mx ex]; cbn [not_negative]; intros Hx;
    try contradiction; try exact I.
  unfold PyFloat.add, SFadd.
  cbn [cond_Zopp Z.add binary_normalize].
  apply binary_round_unsigned.
Qed.

Lemma sum_from_unsigned (xs : list PyFloat.float) (acc : PyFloat.float) :
  unsigned acc -> Forall not_negative xs -> unsigned (fold_left PyFloat.add xs acc).
Proof.
  revert acc.
  induction xs as [| x xs IH]; intros acc Hacc Hxs; cbn [fold_left]; [exact Hacc |].
  inversion Hxs; subst.
  apply IH; [apply add_unsigned |]; assumption.
Qed.

Lemma add_pos_zero (acc : PyFloat.float) :
  unsigned acc -> PyFloat.add acc PyFloat.pos_zero = acc.
Proof.
  destruct acc as [[] | [] | | [] ma ea]; cbn [unsigned]; intros Hacc;
    try contradiction; reflexivity.
Qed.

(** An amount of [0.0] anywhere among accepted amounts leaves their sum
    as it is. *)
Lemma sum_skips_zero (xs ys : list PyFloat.float) :
  Forall not_negative xs ->
  PyFloat.sum (xs ++ PyFloat.pos_zero :: ys)%list = PyFloat.sum (xs ++ ys)%list.
Proof.
  intros Hxs. unfold PyFloat.sum.
  rewrite !fold_left_app. cbn [fold_left].
  rewrite add_pos_zero; [reflexivity |].
  apply sum_from_unsigned; [exact I | exact Hxs].
Qed.

End Totals.

(* ------------------------------------------------------------------ *)
(** ** The loop over the expense entries *)
(* ------------------------------------------------------------------ *)

Section Expenses.
Import Py App Props.

Lemma dict_set_fresh {V : Type} (d : dict V) (key : string) (v : V) :
  ~ In key (keys d) -> dict_set d key v = (d ++ [(key, v)])%list.
Proof.
  induction d as [| [k w] d IH]; cbn [dict_set keys List.map fst app In]; intros Hfresh.
  - reflexivity.
  - destruct (String.eqb_spec k key) as [-> | Hne].
    + exfalso. apply Hfresh. left; reflexivity.
    + f_equal. apply IH. intros Hin. apply Hfresh. right; exact Hin.
Qed.

Lemma keys_app {V : Type} (d1 d2 : dict V) :
  keys (d1 ++ d2)%list = (keys d1 ++ keys d2)%list.
Proof. unfold keys. apply map_app. Qed.

Lemma parse_expenses_step (category : string) (amount : value)
    (rest : dict value) (parsed : dict PyFloat.float) :
  parse_expenses ((category, amount) :: rest) parsed
  = match converted amount with
    | inl val =>
        if PyFloat.ltb val PyFloat.pos_zero then
          Exit (Returned (amount_invalid category))
        else parse_expenses rest (dict_set parsed category val)
    | inr FloatValueError | inr FloatTypeError =>
        Exit (Returned (amount_invalid category))
    | inr FloatOverflowError => Exit (Raised int_too_large)
    end.
Proof. reflexivity. Qed.

(** Entries that are all accepted, under distinct keys, make the parsed
    dict entry by entry and in order. *)
Lemma parse_expenses_accepts :
  forall (entries : dict value) (ps parsed : dict PyFloat.float),
    NoDup (keys parsed ++ keys entries)%list ->
    Forall2 accepted entries ps ->
    parse_expenses entries parsed = Next (parsed ++ ps)%list.
Proof.
  induction entries as [| [category amount] rest IH]; intros ps parsed Hnd Hacc.
  - inversion Hacc; subst. cbn. rewrite app_nil_r. reflexivity.
  - inversion Hacc as [| e [k x] es ps' (Hk & Hconv & Hlt) Hrest]; subst.
    cbn [fst snd] in Hk, Hconv, Hlt. subst k.
    rewrite parse_expenses_step, Hconv, Hlt.
    cbn [keys List.map fst] in Hnd.
    rewrite dict_set_fresh.
    + rewrite (IH ps' (parsed ++ [(category, x)])%list).
      * rewrite <- app_assoc. reflexivity.
      * rewrite keys_app, <- app_assoc. exact Hnd.
      * exact Hrest.
    + apply NoDup_remove_2 in Hnd. intros Hin. apply Hnd.
      apply in_or_app. left; exact Hin.
Qed.

(** Conversely, a loop that runs to its end accepted every entry. *)
Lemma parse_expenses_next :
  forall (entries : dict value) (parsed result : dict PyFloat.float),
    NoDup (keys parsed ++ keys entries)%list ->
    parse_expenses entries parsed = Next result ->
    exists ps, result = (parsed ++ ps)%list /\ Forall2 accepted entries ps.
Proof.
  induction entries as [| [category amount] rest IH]; intros parsed result Hnd.
  - cbn. intros [= <-]. exists []. rewrite app_nil_r. split; [reflexivity | constructor].
  - rewrite parse_expenses_step.
    destruct (converted amount) as [val | []] eqn:Hconv; try discriminate.
    destruct (PyFloat.ltb val PyFloat.pos_zero) eqn:Hlt; [discriminate |].
    cbn [keys List.map fst] in Hnd.
    rewrite dict_set_fresh.
    + intros Hparse.
      apply IH in Hparse.
      * destruct Hparse as (ps & -> & Hps).
        exists ((category, val) :: ps). split.
        -- rewrite <- app_assoc. reflexivity.
        -- constructor; [repeat split; assumption | exact Hps].
      * rewrite keys_app, <- app_assoc. exact Hnd.
    + apply NoDup_remove_2 in Hnd. intros Hin. apply Hnd.
      apply in_or_app. left; exact Hin.
Qed.

Lemma accepted_keys (entries : dict value) (ps : dict PyFloat.float) :
  Forall2 accepted entries ps -> keys ps = keys entries.
Proof.
  induction 1 as [| e p es ps (Hk & _) _ IH]; cbn [keys List.map]; [reflexivity |].
  f_equal; [exact Hk | exact IH].
Qed.

Lemma accepted_not_negative (entries : dict value) (ps : dict PyFloat.float) :
  Forall2 accepted entries ps -> Forall not_negative (values ps).
Proof.
  induction 1 as [| e p es ps (_ & _ & Hlt) _ IH]; cbn [values List.map];
    constructor; [apply ltb_zero_not_negative; exact Hlt | exact IH].
Qed.

(** An entry that is rejected ends the loop with the 400 of one rejected
    entry, as long as no amount overflows. *)
Lemma parse_expenses_rejects :
  forall (entries : dict value) (parsed : dict PyFloat.float),
    Exists (fun e => amount_rejected (snd e)) entries ->
    Forall (fun e => ~ amount_overflows (snd e)) entries ->
    exists category amount,
      In (category, amount) entries /\ amount_rejected amount
      /\ parse_expenses entries parsed = Exit (Returned (amount_invalid category)).
Proof.
  induction entries as [| [category amount] rest IH]; intros parsed Hex Hall.
  - inversion Hex.
  - rewrite parse_expenses_step.
    inversion Hall as [| e es Hhead Hrest]; subst. cbn [snd] in Hhead.
    assert (Hhere : amount_rejected amount ->
                    exists c a, In (c, a) ((category, amount) :: rest)
                                /\ amount_rejected a
                                /\ Exit (A := dict PyFloat.float)
                                     (Returned (amount_invalid category))
                                   = Exit (Returned (amount_invalid c))).
    { intros Hrej. exists category, amount.
      split; [left; reflexivity | split; [exact Hrej | reflexivity]]. }
    unfold converted.
    destruct (truthy amount) eqn:Htruthy.
    + destruct (float amount) as [val | []] eqn:Hfloat.
      * destruct (PyFloat.ltb val PyFloat.pos_zero) eqn:Hlt.
        -- apply Hhere. split; [exact Htruthy |]. right; right; eauto.
        -- assert (Hex' : Exists (fun e => amount_rejected (snd e)) rest).
           { inversion Hex as [e es Hrej | e es Hlater]; subst; [| exact Hlater].
             exfalso. destruct Hrej as (_ & [Hv | [Hv | (x & Hv & Hx)]]);
               cbn [snd] in *; congruence. }
           destruct (IH (dict_set parsed category val) Hex' Hrest)
             as (c & a & Hin & Hrej & Hparse).
           exists c, a. split; [right; exact Hin | split; assumption].
      * apply Hhere. split; [exact Htruthy | left; exact Hfloat].
      * apply Hhere. split; [exact Htruthy | right; left; exact Hfloat].
      * exfalso. apply Hhead. split; assumption.
    + cbn [PyFloat.ltb SFltb SFcompare PyFloat.pos_zero].
      assert (Hex' : Exists (fun e => amount_rejected (snd e)) rest).
      { inversion Hex as [e es Hrej | e es Hlater]; subst; [| exact Hlater].
        destruct Hrej as (Ht & _). cbn [snd] in Ht. congruence. }
      destruct (IH (dict_set parsed category PyFloat.pos_zero) Hex' Hrest)
        as (c & a & Hin & Hrej & Hparse).
      exists c, a. split; [right; exact Hin | split; assumption].
Qed.

End Expenses.

(* ------------------------------------------------------------------ *)
(** ** Line feeds in the expense breakdown *)
(* ------------------------------------------------------------------ *)

Section Lines.
Import PyStr Py App Props.

Lemma line_feeds_app (s t : string) :
  line_feeds (s ++ t) = (line_feeds s + line_feeds t)%nat.
Proof.
  induction s as [| c s IH]; cbn [append line_feeds]; [reflexivity |].
  rewrite IH. lia.
Qed.

Lemma line_feeds_map (f : ascii -> ascii) (s : string) :
  (forall c, Ascii.eqb (f c) (chr 10) = Ascii.eqb c (chr 10)) ->
  line_feeds (PyStr.map f s) = line_feeds s.
Proof.
  intros Hf.
  induction s as [| c s IH]; cbn [PyStr.map line_feeds]; [reflexivity |].
  rewrite Hf, IH. reflexivity.
Qed.

Lemma to_lower_feed (c : ascii) :
  Ascii.eqb (to_lower c) (chr 10) = Ascii.eqb c (chr 10).
Proof. destruct c as [[] [] [] [] [] [] [] []]; reflexivity. Qed.

Lemma to_upper_feed (c : ascii) :
  Ascii.eqb (to_upper c) (chr 10) = Ascii.eqb c (chr 10).
Proof. destruct c as [[] [] [] [] [] [] [] []]; reflexivity. Qed.

Lemma line_feeds_title (s : string) :
  line_feeds (title s) = line_feeds s.
Proof.
  unfold title. generalize false.
  induction s as [| c s IH]; intros b; cbn [title_from line_feeds]; [reflexivity |].
  rewrite IH.
  destruct b; [rewrite to_lower_feed | rewrite to_upper_feed]; reflexivity.
Qed.

Lemma line_feeds_replace_underscore (s : string) :
  line_feeds (replace "_" " " s) = line_feeds s.
Proof.
  apply line_feeds_map.
  intros c. destruct c as [[] [] [] [] [] [] [] []]; reflexivity.
Qed.

Lemma line_feeds_of_list (l : list ascii) :
  Forall not_feed l -> line_feeds (of_list l) = 0%nat.
Proof.
  induction 1 as [| c l Hc _ IH]; cbn [of_list string_of_list_ascii line_feeds];
    [reflexivity |].
  unfold not_feed in Hc. rewrite Hc. exact IH.
Qed.

Lemma to_list_no_feed (s : string) :
  line_feeds s = 0%nat -> Forall not_feed (to_list s).
Proof.
  induction s as [| c s IH]; cbn [to_list list_ascii_of_string line_feeds];
    [constructor |].
  unfold not_feed.
  destruct (Ascii.eqb c (chr 10)) eqn:Hc; [discriminate |].
  intros Hs. constructor; [exact Hc | apply IH; exact Hs].
Qed.

Lemma group_rev_no_feed (digits : list ascii) (n : nat) :
  Forall not_feed digits -> Forall not_feed (PyFloat.group_rev digits n).
Proof.
  intros Hd. revert n.
  induction Hd as [| c r Hc _ IH]; intros n; cbn [PyFloat.group_rev]; [constructor |].
  destruct (Nat.eqb n 3); repeat constructor; auto.
Qed.

Lemma line_feeds_group_thousands (s : string) :
  line_feeds s = 0%nat -> line_feeds (PyFloat.group_thousands s) = 0%nat.
Proof.
  intros Hs. unfold PyFloat.group_thousands.
  apply line_feeds_of_list, Forall_rev, group_rev_no_feed, Forall_rev, to_list_no_feed.
  exact Hs.
Qed.

Lemma line_feeds_string_of_uint (d : Decimal.uint) :
  line_feeds (NilEmpty.string_of_uint d) = 0%nat.
Proof.
  induction d; cbn [NilEmpty.string_of_uint line_feeds]; auto.
Qed.

Lemma line_feeds_of_int (z : Z) : line_feeds (PyStr.of_int z) = 0%nat.
Proof.
  unfold PyStr.of_int, NilZero.string_of_int, NilZero.string_of_uint.
  destruct (Z.to_int z) as [d | d]; destruct d;
    try reflexivity; try apply line_feeds_string_of_uint;
    cbn [append line_feeds Ascii.eqb]; apply line_feeds_string_of_uint.
Qed.

Lemma line_feeds_format_2f (x : PyFloat.float) :
  line_feeds (PyFloat.format_2f x) = 0%nat.
Proof.
  destruct x as [[] | [] | | s m e]; try reflexivity.
  unfold PyFloat.format_2f, PyFloat.two_digits.
  rewrite !line_feeds_app, line_feeds_group_thousands by apply line_feeds_of_int.
  destruct (_ <? 10); rewrite ?line_feeds_app, line_feeds_of_int;
    destruct s; reflexivity.
Qed.

Lemma line_feeds_expense_line (cat : string) (amt : PyFloat.float) :
  line_feeds (expense_line (cat, amt)) = line_feeds cat.
Proof.
  unfold expense_line.
  rewrite !line_feeds_app, line_feeds_title, line_feeds_replace_underscore,
    line_feeds_format_2f.
  change (line_feeds "  - ") with 0%nat.
  change (line_feeds ": â‚¹") with 0%nat.
  lia.
Qed.

Lemma line_feeds_join (parts : list string) :
  Forall (fun p => line_feeds p = 0%nat) parts ->
  line_feeds (join nl parts) = (Datatypes.length parts - 1)%nat.
Proof.
  induction 1 as [| p parts Hp Hparts IH]; [reflexivity |].
  cbn [join]. destruct parts as [| q parts]; [cbn; lia |].
  rewrite !line_feeds_app, Hp, IH.
  change (line_feeds nl) with 1%nat. cbn [Datatypes.length]. lia.
Qed.

(** When no category contains a line feed the breakdown has as many
    lines as there are categories. *)
Lemma line_feeds_expense_lines (parsed : dict PyFloat.float) :
  Forall (fun cat => line_feeds cat = 0%nat) (keys parsed) ->
  line_feeds (expense_lines parsed) = (Datatypes.length parsed - 1)%nat.
Proof.
  intros Hkeys. unfold expense_lines.
  rewrite line_feeds_join, length_map; [reflexivity |].
  apply Forall_map. unfold keys in Hkeys. rewrite Forall_map in Hkeys.
  eapply Forall_impl; [| exact Hkeys].
  intros [cat amt]. cbn [fst]. intros Hcat.
  rewrite line_feeds_expense_line. exact Hcat.
Qed.

End Lines.

(* ------------------------------------------------------------------ *)
(** ** Validation of the expenses and the prompt *)
(* ------------------------------------------------------------------ *)

Section ExpensesAndPrompt.
Import PyStr Py App Props.

Lemma validate_body (d : dict value) :
  validate (Body (VDict d))
  = (income <- validate_income (match dict_get d "income" with
                                | Some v => v
                                | None => VNone
                                end) ;;
     parsed_expenses <- validate_expenses (match dict_get d "expenses" with
                                           | Some v => v
                                           | None => VDict []
                                           end) ;;
     Next (income, parsed_expenses)).
Proof. reflexivity. Qed.

(** What a request that passes validation looks like. *)
Lemma validate_next_inv (req : request) (income : PyFloat.float)
    (parsed : dict PyFloat.float) :
  validate req = Next (income, parsed) ->
  exists d entries,
    req = Body (VDict d)
    /\ validate_income (match dict_get d "income" with
                        | Some v => v
                        | None => VNone
                        end) = Next income
    /\ dict_get d "expenses" = Some (VDict entries)
    /\ entries <> []
    /\ parse_expenses entries [] = Next parsed.
Proof.
  destruct req as [[| | | | | | d] | e]; try discriminate.
  rewrite validate_body.
  destruct (validate_income _) as [income' | f] eqn:Hincome; cbn [bind]; [| discriminate].
  unfold validate_expenses.
  destruct (dict_get d "expenses") as [[| | | | | | entries] |] eqn:Hexp;
    cbn [isinstance_dict negb orb truthy items bind]; try discriminate.
  destruct entries as [| entry entries]; cbn [negb bind]; [discriminate |].
  destruct (parse_expenses _ _) as [parsed' |] eqn:Hparse; cbn [bind]; [| discriminate].
  intros [= -> ->].
  exists d, (entry :: entries).
  split; [reflexivity |]. split; [exact Hincome |]. split; [exact Hexp |].
  split; [discriminate | exact Hparse].
Qed.

(** An income that does not overflow is accepted or answered with one
    of the two 400 responses of lines 40 and 46. *)
Lemma validate_income_cases (income : value) :
  float income <> inr FloatOverflowError ->
  (exists x, validate_income income = Next x)
  \/ validate_income income = Exit (Returned income_required)
  \/ validate_income income = Exit (Returned income_invalid).
Proof.
  intros Hfloat. unfold validate_income.
  destruct (is_none income || str_strip_is_empty income); [right; left; reflexivity |].
  destruct (float income) as [x | []]; try (right; right; reflexivity); [| congruence].
  destruct (PyFloat.ltb x PyFloat.pos_zero); [right; right; reflexivity | left; eauto].
Qed.

(** The loop over a list of entries in two parts. *)
Lemma parse_expenses_app :
  forall (first rest : dict value) (parsed : dict PyFloat.float),
    parse_expenses (first ++ rest)%list parsed
    = match parse_expenses first parsed with
      | Next parsed' => parse_expenses rest parsed'
      | Exit f => Exit f
      end.
Proof.
  induction first as [| [category amount] first IH]; intros rest parsed.
  - reflexivity.
  - cbn [app]. rewrite !parse_expenses_step.
    destruct (converted amount) as [val | []]; try reflexivity.
    destruct (PyFloat.ltb val PyFloat.pos_zero); [reflexivity | apply IH].
Qed.

Lemma rejected_not_overflows (amount : value) :
  amount_rejected amount -> ~ amount_overflows amount.
Proof.
  intros (_ & [H | [H | (x & H & _)]]) (_ & Hover); congruence.
Qed.

(** C3, as the code has it: take a JSON-object body whose income is not
    an integer beyond the range of a double and, where it is a string, is
    ASCII.  The handler answers 400 with an error JSON, and calls
    nothing, when [expenses] is missing, is not a dict or is empty, and
    when some entry's amount is true and either refused by [float]
    ([ValueError], [TypeError]) or negative, provided that no entry
    before that one holds an integer beyond the range of a double (the
    entries after it may hold anything) and that the amounts up to it,
    where they are strings, are ASCII.  (A false amount, such as [""] or
    [None], is accepted as 0.0.)  When the income is valid, the response
    is the one of line 51 or names a category whose amount is refused. *)
Theorem invalid_expenses_are_answered_400 (d : dict value) (api : endpoint) :
  ascii_text (match dict_get d "income" with
              | Some v => v
              | None => VNone
              end) ->
  float (match dict_get d "income" with
         | Some v => v
         | None => VNone
         end) <> inr FloatOverflowError ->
  dict_get d "expenses" = None
  \/ (exists v, dict_get d "expenses" = Some v /\ isinstance_dict v = false)
  \/ dict_get d "expenses" = Some (VDict [])
  \/ (exists before category amount after,
        dict_get d "expenses"
        = Some (VDict (before ++ (category, amount) :: after)%list)
        /\ amount_rejected amount
        /\ ascii_text amount
        /\ Forall (fun e => ascii_text (snd e) /\ ~ amount_overflows (snd e)) before) ->
  exists r,
    analyze (Body (VDict d)) api = ([], Some r)
    /\ status r = 400
    /\ is_error_json (body r) = true
    /\ (r = income_required
        \/ r = income_invalid
        \/ r = expenses_required
        \/ exists entries category amount,
             dict_get d "expenses" = Some (VDict entries)
             /\ In (category, amount) entries
             /\ amount_rejected amount
             /\ r = amount_invalid category).
Proof.
  intros _ Hincome Hbad.
  unfold analyze, analyze_try. rewrite validate_body.
  destruct (validate_income_cases _ Hincome) as [(x & ->) | [-> | ->]]; cbn [bind].
  - unfold validate_expenses.
    destruct Hbad as [-> | [(v & -> & Hv) | [-> | Hbad]]].
    + exists expenses_required. cbn. repeat split. auto.
    + rewrite Hv. exists expenses_required. cbn. repeat split. auto.
    + exists expenses_required. cbn. repeat split. auto.
    + destruct Hbad as (before & category & amount & after & Hexp & Hrej & _ & Hbefore).
      rewrite Hexp.
      assert (Hne : (before ++ (category, amount) :: after)%list <> [])
        by (destruct before; discriminate).
      assert (Hloop : exists c a,
                 In (c, a) (before ++ (category, amount) :: after)%list
                 /\ amount_rejected a
                 /\ parse_expenses (before ++ (category, amount) :: after)%list []
                    = Exit (Returned (amount_invalid c))).
      { destruct (parse_expenses_rejects (before ++ [(category, amount)])%list [])
          as (c & a & Hin & Ha & Hparse).
        - apply Exists_app. right. apply Exists_cons_hd. exact Hrej.
        - apply Forall_app. split.
          + eapply Forall_impl; [| exact Hbefore]. intros e [_ He]. exact He.
          + constructor; [apply rejected_not_overflows; exact Hrej | constructor].
        - exists c, a. split; [| split; [exact Ha |]].
          + apply in_app_or in Hin. apply in_or_app.
            destruct Hin as [Hin | [Hin | []]]; [left; exact Hin |].
            right. left. exact Hin.
          + change ((category, amount) :: after) with ([(category, amount)] ++ after)%list.
            rewrite app_assoc, parse_expenses_app, Hparse. reflexivity. }
      destruct Hloop as (c & a & Hin & Ha & Hparse).
      cbn [isinstance_dict items].
      destruct (before ++ (category, amount) :: after)%list as [| entry entries] eqn:Hentries;
        [congruence |].
      cbn [truthy negb orb]. rewrite Hparse. cbn [bind].
      exists (amount_invalid c).
      split; [reflexivity |]. split; [reflexivity |]. split; [reflexivity |].
      right; right; right. exists (entry :: entries), c, a. auto.
  - exists income_required. repeat split. auto.
  - exists income_invalid. repeat split. auto.
Qed.

Lemma invalid_expenses_are_answered_400_witness :
  analyze (Body (VDict Readings.negative_then_huge)) Samples.advises
  = ([], Some (amount_invalid "food"))
  /\ exists r,
    analyze (Body (VDict Readings.negative_then_huge)) Samples.advises = ([], Some r)
    /\ status r = 400
    /\ is_error_json (body r) = true
    /\ (r = income_required
        \/ r = income_invalid
        \/ r = expenses_required
        \/ exists entries category amount,
             dict_get Readings.negative_then_huge "expenses" = Some (VDict entries)
             /\ In (category, amount) entries
             /\ amount_rejected amount
             /\ r = amount_invalid category).
Proof.
  split; [vm_compute; reflexivity |].
  apply (invalid_expenses_are_answered_400 Readings.negative_then_huge Samples.advises).
  - exact I.
  - vm_compute; discriminate.
  - right; right; right.
    exists [("rent", VInt 400)], "food", (VInt (-25)), [("loan", VInt (10 ^ 400))].
    split; [reflexivity |]. split; [| split].
    + split; [reflexivity |]. right; right.
      exists (S754_finite true 7036874417766400 (-48)).
      split; vm_compute; reflexivity.
    + exact I.
    + repeat constructor. intros [_ H]; vm_compute in H; discriminate.
Defined.

(** C3 as stated fails: the amount [""] is not a number ([float("")]
    raises [ValueError]), yet the entry is accepted, the endpoint is
    called and the response is 200. *)
Lemma blank_amount_is_not_rejected :
  float (VStr "") = inr FloatValueError
  /\ calls (fst (analyze Samples.blank_amount Samples.advises)) = 1%nat
  /\ snd (analyze Samples.blank_amount Samples.advises)
     = Some {| body := VDict [("advice", VStr "## Budget Overview")]; status := 200 |}.
Proof.
  repeat split; vm_compute; reflexivity.
Qed.

Lemma Forall_eq_repeat {A : Type} (x : A) (l : list A) :
  Forall (eq x) l -> l = repeat x (Datatypes.length l).
Proof.
  induction 1 as [| y l <- _ IH]; cbn; [reflexivity | f_equal; exact IH].
Qed.

(** A false amount is taken as [0.0] and the loop goes on. *)
Lemma parse_expenses_false_amount (category : string) (amount : value)
    (rest : dict value) (parsed : dict PyFloat.float) :
  truthy amount = false ->
  parse_expenses ((category, amount) :: rest) parsed
  = parse_expenses rest (dict_set parsed category PyFloat.pos_zero).
Proof.
  intros Hfalse. rewrite parse_expenses_step. unfold converted.
  rewrite Hfalse. reflexivity.
Qed.

Lemma values_app {V : Type} (d1 d2 : dict V) :
  values (d1 ++ d2)%list = (values d1 ++ values d2)%list.
Proof. unfold values. apply map_app. Qed.

(** C9: an entry whose amount is false ([None], [""], [0], [False], and
    likewise [0.0] or an empty list or dict) is not rejected.  The loop
    records [0.0] for it and goes on; if the other entries are accepted,
    so is the whole dict, with the entry in its place; the total is what
    it is without the entry; and the entry has its own line in the
    breakdown, showing 0.00. *)
Theorem false_amount_counts_as_zero
    (before after : dict value) (category : string) (amount : value)
    (others : dict PyFloat.float) :
  truthy amount = false ->
  NoDup (keys (before ++ (category, amount) :: after)%list) ->
  parse_expenses (before ++ after)%list [] = Next others ->
  (forall rest parsed,
      parse_expenses ((category, amount) :: rest) parsed
      = parse_expenses rest (dict_set parsed category PyFloat.pos_zero))
  /\ exists p1 p2,
       others = (p1 ++ p2)%list
       /\ keys p1 = keys before
       /\ parse_expenses (before ++ (category, amount) :: after)%list []
          = Next (p1 ++ (category, PyFloat.pos_zero) :: p2)%list
       /\ total_expenses (p1 ++ (category, PyFloat.pos_zero) :: p2)%list
          = total_expenses others
       /\ expense_lines (p1 ++ (category, PyFloat.pos_zero) :: p2)%list
          = join nl (List.map expense_line p1
                       ++ [("  - " ++ title (replace "_" " " category) ++ ": â‚¹0.00")%string]
                       ++ List.map expense_line p2)%list.
Proof.
  intros Hfalse Hnd Hothers.
  split; [intros rest parsed; apply parse_expenses_false_amount; exact Hfalse |].
  assert (Hnd' : NoDup (keys (before ++ after)%list)).
  { rewrite keys_app in Hnd |- *. cbn [keys List.map fst] in Hnd.
    apply NoDup_remove_1 in Hnd. exact Hnd. }
  destruct (parse_expenses_next _ [] others Hnd' Hothers) as (ps & -> & Hacc).
  cbn [app] in *.
  apply Forall2_app_inv_l in Hacc.
  destruct Hacc as (p1 & p2 & Hacc1 & Hacc2 & ->).
  exists p1, p2.
  split; [reflexivity |].
  split; [apply accepted_keys; exact Hacc1 |].
  split; [| split].
  - apply (parse_expenses_accepts _ (p1 ++ (category, PyFloat.pos_zero) :: p2)%list []).
    + exact Hnd.
    + apply Forall2_app; [exact Hacc1 |].
      constructor; [| exact Hacc2].
      unfold accepted, converted. cbn [fst snd]. rewrite Hfalse.
      repeat split.
  - unfold total_expenses. rewrite !values_app. cbn [values List.map snd].
    apply sum_skips_zero.
    apply (accepted_not_negative _ _ Hacc1).
  - unfold expense_lines. rewrite map_app. reflexivity.
Qed.

Lemma false_amount_counts_as_zero_witness :
  truthy VNone = false /\ truthy (VStr "") = false
  /\ truthy (VInt 0) = false /\ truthy (VBool false) = false
  /\ exists p1 p2,
    [("rent", S754_finite false 8246337208320000 (-39));
     ("food_and_dining", S754_finite false 4948352080805888 (-40))]
    = (p1 ++ p2)%list
    /\ keys p1 = keys [("rent", VInt 15000); ("food_and_dining", VStr "4500.5")]
    /\ parse_expenses
         ([("rent", VInt 15000); ("food_and_dining", VStr "4500.5")]
            ++ ("misc", VStr "") :: [])%list []
       = Next (p1 ++ ("misc", PyFloat.pos_zero) :: p2)%list
    /\ total_expenses (p1 ++ ("misc", PyFloat.pos_zero) :: p2)%list
       = total_expenses
           [("rent", S754_finite false 8246337208320000 (-39));
            ("food_and_dining", S754_finite false 4948352080805888 (-40))]
    /\ expense_lines (p1 ++ ("misc", PyFloat.pos_zero) :: p2)%list
       = join nl (List.map expense_line p1
                    ++ [("  - " ++ title (replace "_" " " "misc") ++ ": â‚¹0.00")%string]
                    ++ List.map expense_line p2)%list.
Proof.
  do 4 (split; [reflexivity |]).
  apply (false_amount_counts_as_zero
           [("rent", VInt 15000); ("food_and_dining", VStr "4500.5")] []
           "misc" (VStr "")).
  - reflexivity.
  - repeat constructor; cbn; intuition discriminate.
  - vm_compute; reflexivity.
Defined.

End ExpensesAndPrompt.

(* ------------------------------------------------------------------ *)
(** ** Further facts: the income check, odd bodies, a configured key *)
(* ------------------------------------------------------------------ *)

Section Further.
Import PyStr Py App Props Readings.

Lemma rstrip_cons_not_space (c : ascii) (r : string) :
  is_space c = false -> rstrip (String c r) <> EmptyString.
Proof.
  intros Hc. cbn [rstrip]. destruct (rstrip r); [rewrite Hc |]; discriminate.
Qed.

Lemma strip_empty_lstrip (s : string) : strip s = "" -> lstrip s = "".
Proof.
  unfold strip.
  induction s as [| c s IH]; cbn [lstrip]; [reflexivity |].
  destruct (is_space c) eqn:Hc; [exact IH |].
  intros H. exfalso. exact (rstrip_cons_not_space c s Hc H).
Qed.

Lemma lstrip_empty_no_underscore (s : string) :
  lstrip s = "" -> contains "_" s = false.
Proof.
  induction s as [| c s IH]; cbn [lstrip contains]; [reflexivity |].
  destruct (is_space c) eqn:Hc; [| discriminate].
  intros H. rewrite (IH H), orb_false_r.
  cbn [String.prefix].
  destruct (Ascii.ascii_dec "_" c) as [<- | Hne]; [discriminate Hc | reflexivity].
Qed.

(** What [float] leaves of a text of blanks is a text of blanks. *)
Lemma skip_blanks_spaces (s : string) :
  lstrip s = "" -> lstrip (PyFloat.skip_blanks s) = "".
Proof.
  induction s as [| c s IH]; cbn [lstrip PyFloat.skip_blanks]; [reflexivity |].
  destruct (is_space c) eqn:Hc; [| discriminate].
  intros Hs. destruct (PyFloat.is_blank c); [exact (IH Hs) |].
  cbn [lstrip]. rewrite Hc. exact Hs.
Qed.

Lemma drop_blanks_spaces (s : string) :
  lstrip s = "" -> lstrip (PyFloat.drop_blanks s) = "".
Proof.
  induction s as [| c s IH]; cbn [lstrip PyFloat.drop_blanks]; [reflexivity |].
  destruct (is_space c) eqn:Hc; [| discriminate].
  intros Hs. specialize (IH Hs).
  destruct (PyFloat.drop_blanks s) as [| c' s'].
  - destruct (PyFloat.is_blank c); [reflexivity |].
    unfold char. cbn [lstrip]. rewrite Hc. reflexivity.
  - cbn [lstrip] in IH |- *. rewrite Hc. exact IH.
Qed.

(** A text of blanks is neither a number nor [inf] or [nan]. *)
Lemma spaces_are_no_number (s : string) :
  lstrip s = "" ->
  PyFloat.parse_inf_or_nan s = None /\ PyFloat.parse_decimal s = None.
Proof.
  destruct s as [| c s]; [split; reflexivity |].
  cbn [lstrip]. destruct (is_space c) eqn:Hc; [| discriminate].
  intros _.
  destruct c as [[] [] [] [] [] [] [] []]; try discriminate Hc; split; reflexivity.
Qed.

(** [float] refuses a string of blanks. *)
Lemma of_string_blank (s : string) : strip s = "" -> PyFloat.of_string s = None.
Proof.
  intros Hs. apply strip_empty_lstrip in Hs.
  unfold PyFloat.of_string.
  rewrite (lstrip_empty_no_underscore s Hs).
  destruct (spaces_are_no_number _ (drop_blanks_spaces _ (skip_blanks_spaces s Hs)))
    as [-> ->].
  reflexivity.
Qed.

Lemma float_not_blank (income : value) (x : PyFloat.float) :
  float income = inl x -> is_none income || str_strip_is_empty income = false.
Proof.
  destruct income as [| b | z | y | s | l | d]; cbn [float is_none str_strip_is_empty orb];
    try discriminate; try reflexivity.
  destruct (String.eqb_spec (strip s) "") as [Hs | Hs]; [| reflexivity].
  rewrite (of_string_blank s Hs). discriminate.
Qed.

(** X1: the income check of lines 38-46 on a JSON-object body whose
    income, if it is a string, is ASCII.  A missing, null or blank income
    is answered 400 "required"; an income that [float] refuses with
    [ValueError] or [TypeError], or that is negative, is answered 400
    "valid positive number"; in both cases nothing is called.  An income
    that [float] converts to a value that is not below zero (0 included)
    passes the check with that value. *)
Theorem income_is_validated (d : dict value) (api : endpoint) (income : value) :
  income = match dict_get d "income" with
           | Some v => v
           | None => VNone
           end ->
  ascii_text income ->
  (income = VNone \/ (exists s, income = VStr s /\ strip s = "") ->
   analyze (Body (VDict d)) api = ([], Some income_required))
  /\ (is_none income || str_strip_is_empty income = false ->
      float income = inr FloatValueError
      \/ float income = inr FloatTypeError
      \/ (exists x, float income = inl x /\ PyFloat.ltb x PyFloat.pos_zero = true) ->
      analyze (Body (VDict d)) api = ([], Some income_invalid))
  /\ (forall x, float income = inl x -> PyFloat.ltb x PyFloat.pos_zero = false ->
        validate_income income = Next x)
  /\ status income_required = 400
  /\ status income_invalid = 400
  /\ is_error_json (body income_required) = true
  /\ is_error_json (body income_invalid) = true.
Proof.
  intros Hincome _.
  split; [| split; [| split; [| repeat split]]].
  - intros Hmissing.
    unfold analyze, analyze_try. rewrite validate_body, <- Hincome.
    assert (Hblank : is_none income || str_strip_is_empty income = true).
    { destruct Hmissing as [-> | (s & -> & Hs)]; [reflexivity |].
      cbn [is_none str_strip_is_empty orb]. rewrite Hs. reflexivity. }
    unfold validate_income. rewrite Hblank. reflexivity.
  - intros Hpresent Hbad.
    unfold analyze, analyze_try. rewrite validate_body, <- Hincome.
    unfold validate_income. rewrite Hpresent.
    destruct Hbad as [-> | [-> | (x & -> & ->)]]; reflexivity.
  - intros x Hfloat Hlt.
    unfold validate_income.
    rewrite (float_not_blank income x Hfloat), Hfloat, Hlt. reflexivity.
Qed.

Lemma income_is_validated_witness :
  ascii_text (VStr blank_income)
  /\ strip blank_income = ""
  /\ analyze (Body (VDict [("income", VStr blank_income)])) Samples.advises
     = ([], Some income_required)
  /\ ascii_text (VStr padded_income)
  /\ float (VStr padded_income) = inr FloatValueError
  /\ analyze (Body (VDict [("income", VStr padded_income)])) Samples.advises
     = ([], Some income_invalid)
  /\ validate_income (VStr " 1_250.75 ")
     = Next (S754_finite false 5500856673763328 (-42)).
Proof.
  split; [reflexivity |]. split; [reflexivity |].
  split.
  { apply (proj1 (income_is_validated [("income", VStr blank_income)] Samples.advises
                    (VStr blank_income) eq_refl eq_refl)).
    right. exists blank_income. split; reflexivity. }
  split; [reflexivity |]. split; [reflexivity |].
  split.
  { apply (proj1 (proj2 (income_is_validated [("income", VStr padded_income)]
                           Samples.advises (VStr padded_income) eq_refl eq_refl))).
    - reflexivity.
    - left; reflexivity. }
  apply (proj1 (proj2 (proj2 (income_is_validated [("income", VStr " 1_250.75 ")]
                                Samples.advises (VStr " 1_250.75 ") eq_refl eq_refl)))).
  - vm_compute; reflexivity.
  - reflexivity.
Defined.

(** X2: a body that decodes to something other than a JSON object has no
    [get]: the [AttributeError] reaches the outer [except] and the
    response is the generic 500. *)
Theorem non_object_body_is_answered_500 (data : value) (api : endpoint) :
  isinstance_dict data = false ->
  analyze (Body data) api
  = ([Log ERROR ("Analysis error: '" ++ type_name data
                   ++ "' object has no attribute 'get'")],
     Some something_went_wrong)
  /\ status something_went_wrong = 500.
Proof.
  intros Hdata.
  destruct data as [| b | z | x | s | l | d]; try discriminate;
    split; vm_compute; reflexivity.
Qed.

Lemma non_object_body_is_answered_500_witness :
  isinstance_dict (VList []) = false
  /\ analyze Samples.not_an_object Samples.advises
     = ([Log ERROR ("Analysis error: '" ++ type_name (VList [])
                      ++ "' object has no attribute 'get'")],
        Some something_went_wrong)
  /\ status something_went_wrong = 500.
Proof.
  split; [reflexivity |].
  exact (non_object_body_is_answered_500 (VList []) Samples.advises eq_refl).
Defined.

End Further.

Section StartupWithKey.
Import Py Startup.

(** X3: with a non-empty key the import runs to its end: the client holds the
    key, both routes are registered, and [app.run] is entered exactly
    when the module is the main program. *)
Theorem configured_key_completes_import
    (getenv : string -> option string) (is_main : bool) (key : string) :
  getenv "GROQ_API_KEY" = Some key -> key <> "" ->
  import_module getenv is_main
  = (None,
     {| GROQ_API_KEY := Some key;
        client := Some key;
        MODEL := Some "llama-3.3-70b-versatile";
        app := Some [ {| rule := "/"; methods := ["GET"]; endpoint := home |};
                      {| rule := "/analyze"; methods := ["POST"]; endpoint := analyze |} ];
        serving := is_main |}).
Proof.
  intros Hkey Hne.
  unfold import_module, module_body.
  cbn [run exec initial GROQ_API_KEY client MODEL app serving].
  rewrite Hkey. cbn [not_key].
  destruct (String.eqb_spec key "") as [-> | _]; [congruence |].
  cbn [option_map app]. rewrite orb_false_r. reflexivity.
Qed.

Lemma configured_key_completes_import_witness :
  (fun _ : string => Some "gsk_test") "GROQ_API_KEY" = Some "gsk_test"
  /\ import_module (fun _ => Some "gsk_test") false
     = (None,
        {| GROQ_API_KEY := Some "gsk_test";
           client := Some "gsk_test";
           MODEL := Some "llama-3.3-70b-versatile";
           app := Some [ {| rule := "/"; methods := ["GET"]; endpoint := home |};
                         {| rule := "/analyze"; methods := ["POST"]; endpoint := analyze |} ];
           serving := false |}).
Proof.
  split; [reflexivity |].
  apply (configured_key_completes_import (fun _ => Some "gsk_test") false "gsk_test").
  - reflexivity.
  - discriminate.
Defined.

End StartupWithKey.

(* ------------------------------------------------------------------ *)
(** ** Log records and sleeps of a run *)
(* ------------------------------------------------------------------ *)

Section Logs.
Import PyStr Py App Props Readings.

Lemma logged_app (l : level) (t1 t2 : list event) :
  logged l (t1 ++ t2)%list = (logged l t1 ++ logged l t2)%list.
Proof. unfold logged. apply flat_map_app. Qed.

Lemma slept_app (t1 t2 : list event) :
  slept (t1 ++ t2)%list = slept t1 + slept t2.
Proof.
  unfold slept.
  induction t1 as [| e t1 IH]; cbn [app fold_right]; [reflexivity |].
  destruct e; rewrite IH; lia.
Qed.

(** The events of [analyze], exactly. *)
Lemma analyze_trace_exact (req : request) (api : endpoint) :
  fst (analyze req api)
  = (fst (analyze_try req api)
       ++ match snd (analyze_try req api) with
          | Raised exc => [Log ERROR ("Analysis error: " ++ str exc)]
          | _ => []
          end)%list.
Proof.
  unfold analyze.
  destruct (analyze_try req api) as [trace [r | exc |]]; cbn [fst snd];
    rewrite ?app_nil_r; reflexivity.
Qed.

(** What the loop logs and how long it sleeps, from attempt [a] on. *)
Lemma call_groq_logged (p : string) (api : endpoint) :
  forall (n a : nat), (a + n = max_retries)%nat ->
    let trace := fst (call_groq p api (seq a n)) in
    logged WARNING trace = List.map retry_warning (seq a (calls trace - 1))
    /\ slept trace = 10 * Z.of_nat (calls trace - 1)
    /\ match snd (call_groq p api (seq a n)) with
       | Returned r =>
           if status r =? 429 then
             exists api_err,
               logged ERROR trace
               = ["Rate limit exceeded after 3 retries: " ++ str api_err]
           else logged ERROR trace = []
       | _ => logged ERROR trace = []
       end.
Proof.
  induction n as [| n IH]; intros a Ha.
  - cbn. auto.
  - cbn [seq call_groq].
    destruct (create_and_read (api a)) as [advice | api_err] eqn:Hread.
    + cbn. auto.
    + destruct (is_rate_limit api_err) eqn:Hrate.
      * destruct (a <? max_retries - 1)%nat eqn:Hlast.
        -- apply Nat.ltb_lt in Hlast.
           assert (Hn : (0 < n)%nat) by (unfold max_retries in *; lia).
           destruct (call_groq_schedule p api n (S a) ltac:(lia))
             as (_ & _ & Hpos & _ & _).
           specialize (Hpos Hn).
           specialize (IH (S a) ltac:(lia)).
           destruct (call_groq p api (seq (S a) n)) as [t f].
           cbn [fst snd] in *.
           destruct IH as (Hwarn & Hslept & Herr).
           unfold calls in *.
           cbn [filter is_call Datatypes.length logged flat_map slept fold_right app].
           fold (logged WARNING t). fold (logged ERROR t). fold (slept t).
           replace (S (Datatypes.length (filter is_call t)) - 1)%nat
             with (S (Datatypes.length (filter is_call t) - 1)) by lia.
           cbn [seq List.map]. rewrite Hwarn, Hslept.
           split; [reflexivity |]. split; [lia | exact Herr].
        -- cbn. split; [reflexivity |]. split; [reflexivity |]. eauto.
      * cbn. auto.
Qed.

End Logs.

(* ------------------------------------------------------------------ *)
(** ** How a run ends: the responses and what goes with them *)
(* ------------------------------------------------------------------ *)

Section Endings.
Import PyStr Py App Props Readings.

Lemma index_error_is_plain :
  is_rate_limit {| class := IndexError; str := "list index out of range" |} = false
  /\ is_auth_error {| class := IndexError; str := "list index out of range" |} = false.
Proof. split; vm_compute; reflexivity. Qed.

(** The attempt that settles a validated request, with the flow of the
    [try] body. *)
Lemma analyze_try_settles (req : request) (api : endpoint)
    (income : PyFloat.float) (parsed : dict PyFloat.float) :
  validate req = Next (income, parsed) ->
  exists k, (k < 3)%nat
    /\ calls (fst (analyze_try req api)) = S k
    /\ (forall j, (j < k)%nat -> rate_limited (api j) = true)
    /\ match create_and_read (api k) with
       | inl advice =>
           snd (analyze_try req api) = Returned (jsonify (advice_json advice) 200)
       | inr api_err =>
           if is_rate_limit api_err then
             k = 2%nat /\ snd (analyze_try req api) = Returned rate_limit_reached
           else snd (analyze_try req api) = Raised api_err
       end.
Proof.
  intros Hv. rewrite (analyze_try_validated _ api _ _ Hv).
  destruct (call_groq_settles (prompt income parsed) api 3 0 eq_refl ltac:(lia))
    as (k & Hk & Hcalls & Hprev & Hend).
  change (seq 0 max_retries) with (seq 0 3).
  exists k. unfold max_retries in *.
  split; [lia |]. split; [rewrite Hcalls; lia |].
  split; [intros j Hj; apply Hprev; lia | exact Hend].
Qed.

(** The settling attempt is the first that is not rate limited, or the
    last one. *)
Lemma settling_attempt_unique (api : endpoint) (k k' : nat) :
  (k < 3)%nat ->
  (forall j, (j < k)%nat -> rate_limited (api j) = true) ->
  rate_limited (api k) = false ->
  (forall j, (j < k')%nat -> rate_limited (api j) = true) ->
  (rate_limited (api k') = true -> k' = 2%nat) ->
  k' = k.
Proof.
  intros Hk Hprev Hstop Hprev' Hlast.
  destruct (Nat.lt_trichotomy k' k) as [Hlt | [Heq | Hgt]]; [| exact Heq |].
  - specialize (Hlast (Hprev k' Hlt)). lia.
  - rewrite (Hprev' k Hgt) in Hstop. discriminate.
Qed.

(** X4: a completion that comes back without choices is not retried:
    [choices[0]] raises [IndexError] inside the inner [try], the text of
    which passes neither test, so the handler logs it and answers the
    generic 500 after exactly the calls made so far. *)
Theorem empty_choices_are_answered_500
    (req : request) (api : endpoint) (income : PyFloat.float)
    (parsed : dict PyFloat.float) (k : nat) :
  validate req = Next (income, parsed) ->
  (k < 3)%nat ->
  (forall j, (j < k)%nat -> rate_limited (api j) = true) ->
  api k = ApiReturns [] ->
  snd (analyze req api) = Some something_went_wrong
  /\ calls (fst (analyze req api)) = S k
  /\ logged ERROR (fst (analyze req api)) = ["Analysis error: list index out of range"].
Proof.
  intros Hv Hk Hprev Hret.
  destruct index_error_is_plain as [Hrate Hauth].
  assert (Hread : create_and_read (api k)
                  = inr {| class := IndexError; str := "list index out of range" |})
    by (rewrite Hret; reflexivity).
  destruct (analyze_try_settles req api income parsed Hv)
    as (k' & Hk' & Hcalls & Hprev' & Hend).
  assert (k' = k) as ->.
  { apply (settling_attempt_unique api); auto.
    - unfold rate_limited. rewrite Hread. exact Hrate.
    - unfold rate_limited.
      destruct (create_and_read (api k')) as [advice | api_err]; [discriminate |].
      intros Hrl. rewrite Hrl in Hend. apply Hend. }
  rewrite Hread, Hrate in Hend.
  destruct (analyze_readings req api) as (-> & _ & _).
  rewrite analyze_response, analyze_trace_exact, Hend, logged_app.
  split; [| split; [exact Hcalls |]].
  - unfold handle_exception. cbn [snd]. rewrite Hauth. reflexivity.
  - pose proof (call_groq_logged (prompt income parsed) api 3 0 eq_refl)
      as (_ & _ & Herr).
    rewrite (analyze_try_validated _ api _ _ Hv) in Hend |- *.
    change (seq 0 max_retries) with (seq 0 3) in *.
    rewrite Hend in Herr. rewrite Herr. reflexivity.
Qed.

Lemma empty_choices_are_answered_500_witness :
  validate Samples.budget = Next (Samples.budget_income, Samples.budget_parsed)
  /\ (forall j, (j < 1)%nat -> rate_limited (empty_after 1 j) = true)
  /\ empty_after 1 1%nat = ApiReturns []
  /\ snd (analyze Samples.budget (empty_after 1)) = Some something_went_wrong
  /\ calls (fst (analyze Samples.budget (empty_after 1))) = 2%nat
  /\ logged ERROR (fst (analyze Samples.budget (empty_after 1)))
     = ["Analysis error: list index out of range"].
Proof.
  assert (Hprev : forall j, (j < 1)%nat -> rate_limited (empty_after 1 j) = true).
  { intros [| j] Hj; [reflexivity | lia]. }
  assert (Hv : validate Samples.budget
               = Next (Samples.budget_income, Samples.budget_parsed))
    by (vm_compute; reflexivity).
  split; [exact Hv |]. split; [exact Hprev |]. split; [reflexivity |].
  exact (empty_choices_are_answered_500 Samples.budget (empty_after 1)
           Samples.budget_income Samples.budget_parsed 1%nat
           Hv ltac:(lia) Hprev eq_refl).
Defined.

(** Validation returns one of four responses. *)
Lemma validate_exit_returned (req : request) (r : response) :
  validate req = Exit (Returned r) ->
  r = income_required \/ r = income_invalid \/ r = expenses_required
  \/ exists category, r = amount_invalid category.
Proof.
  unfold validate, get_json.
  destruct req as [data | e]; cbn [bind]; [| discriminate].
  destruct data; cbn [get bind]; try discriminate.
  unfold validate_income.
  destruct (is_none _ || str_strip_is_empty _);
    [cbn [bind]; intros [= <-]; auto |].
  destruct (float _) as [income | []]; cbn [bind];
    try (intros [= <-]; auto; fail); try discriminate.
  destruct (PyFloat.ltb income PyFloat.pos_zero); cbn [bind];
    [intros [= <-]; auto |].
  unfold validate_expenses.
  destruct (negb (isinstance_dict _) || negb (truthy _)); cbn [bind];
    [intros [= <-]; auto |].
  destruct (parse_expenses _ _) as [parsed | g] eqn:Hparse; cbn [bind]; [discriminate |].
  intros [= ->].
  apply parse_expenses_exit in Hparse.
  destruct Hparse as [(category & [= ->]) | Hraised]; [| discriminate].
  right; right; right. eauto.
Qed.

Lemma validate_never_returns_none (req : request) :
  validate req <> Exit ReturnedNone.
Proof.
  intros Hv. destruct (validate_exit _ _ Hv) as [(r & Hr & _) | (e & He)]; discriminate.
Qed.

(** X5: the responses of [analyze], all of them.  A request ends with one
    of the four validation messages, and then without a call, a sleep or
    a log record; or with the advice of a completion, status 200, after
    at least one call; or with the fixed 429 message, after three calls;
    or with one of the two fixed messages of the outer [except], status
    401 or 500.  The text of an exception is never part of a response. *)
Theorem responses_of_analyze (req : request) (api : endpoint) :
  exists r,
    snd (analyze req api) = Some r
    /\ (((r = income_required \/ r = income_invalid \/ r = expenses_required
          \/ exists category, r = amount_invalid category)
         /\ status r = 400
         /\ fst (analyze req api) = [])
        \/ ((exists advice, r = jsonify (advice_json advice) 200)
            /\ (1 <= calls (fst (analyze req api)))%nat)
        \/ (r = rate_limit_reached
            /\ status r = 429
            /\ calls (fst (analyze req api)) = 3%nat)
        \/ ((r = invalid_api_key /\ status r = 401
             \/ r = something_went_wrong /\ status r = 500)
            /\ exists exc,
                 logged ERROR (fst (analyze req api))
                 = ["Analysis error: " ++ str exc])).
Proof.
  assert (Hexc : forall exc,
             snd (handle_exception exc) = invalid_api_key
             /\ status (snd (handle_exception exc)) = 401
             \/ snd (handle_exception exc) = something_went_wrong
                /\ status (snd (handle_exception exc)) = 500).
  { intros exc. unfold handle_exception. cbn [snd].
    destruct (is_auth_error exc); [left | right]; split; reflexivity. }
  rewrite analyze_response, analyze_trace_exact.
  destruct (analyze_readings req api) as (Hcalls & _ & _).
  rewrite analyze_trace_exact in Hcalls.
  destruct (validate req) as [[income parsed] | f] eqn:Hv.
  - destruct (analyze_try_settles req api income parsed Hv)
      as (k & Hk & Hn & _ & Hend).
    pose proof (call_groq_logged (prompt income parsed) api 3 0 eq_refl)
      as (_ & _ & Herr).
    change (seq 0 3) with (seq 0 max_retries) in Herr.
    rewrite <- (analyze_try_validated req api _ _ Hv) in Herr.
    destruct (create_and_read (api k)) as [advice | api_err].
    + rewrite Hend in *. eexists. split; [reflexivity |].
      right; left. split; [eauto |]. rewrite app_nil_r. lia.
    + destruct (is_rate_limit api_err).
      * destruct Hend as [-> Hend]. rewrite Hend in *.
        eexists. split; [reflexivity |].
        right; right; left. rewrite app_nil_r.
        split; [reflexivity |]. split; [reflexivity | exact Hn].
      * rewrite Hend in *. eexists. split; [reflexivity |].
        right; right; right. split; [apply Hexc |].
        exists api_err. rewrite logged_app, Herr. reflexivity.
  - rewrite (analyze_try_exit _ api _ Hv). cbn [fst snd app].
    destruct f as [r | exc |].
    + exists r. split; [reflexivity |]. left.
      pose proof (validate_exit_returned req r Hv) as Hr.
      split; [exact Hr |]. split; [| reflexivity].
      destruct Hr as [-> | [-> | [-> | (category & ->)]]]; reflexivity.
    + eexists. split; [reflexivity |].
      right; right; right. split; [apply Hexc |]. exists exc. reflexivity.
    + exfalso. exact (validate_never_returns_none req Hv).
Qed.

Lemma responses_of_analyze_witness :
  exists r,
    snd (analyze Samples.budget Samples.limited_twice) = Some r
    /\ (((r = income_required \/ r = income_invalid \/ r = expenses_required
          \/ exists category, r = amount_invalid category)
         /\ status r = 400
         /\ fst (analyze Samples.budget Samples.limited_twice) = [])
        \/ ((exists advice, r = jsonify (advice_json advice) 200)
            /\ (1 <= calls (fst (analyze Samples.budget Samples.limited_twice)))%nat)
        \/ (r = rate_limit_reached
            /\ status r = 429
            /\ calls (fst (analyze Samples.budget Samples.limited_twice)) = 3%nat)
        \/ ((r = invalid_api_key /\ status r = 401
             \/ r = something_went_wrong /\ status r = 500)
            /\ exists exc,
                 logged ERROR (fst (analyze Samples.budget Samples.limited_twice))
                 = ["Analysis error: " ++ str exc])).
Proof.
  exact (responses_of_analyze Samples.budget Samples.limited_twice).
Defined.

(** X6: the rate-limit test of line 123 comes before the test of line
    139.  When every failure of the endpoint passes the rate-limit test,
    a validated request is answered 200 or, after three calls, 429; it is
    never answered 401 or 500, even if the text of the failure also
    mentions [invalid] or [api_key]. *)
Theorem rate_limit_test_comes_first
    (req : request) (api : endpoint) (income : PyFloat.float)
    (parsed : dict PyFloat.float) :
  validate req = Next (income, parsed) ->
  (forall k api_err, (k < 3)%nat -> create_and_read (api k) = inr api_err ->
                     is_rate_limit api_err = true) ->
  (exists advice, snd (analyze req api) = Some (jsonify (advice_json advice) 200))
  \/ (snd (analyze req api) = Some rate_limit_reached
      /\ calls (fst (analyze req api)) = 3%nat).
Proof.
  intros Hv Hall.
  destruct (analyze_settles req api income parsed Hv)
    as (k & Hk & Hcalls & _ & Hend).
  specialize (Hall k).
  destruct (create_and_read (api k)) as [advice | api_err]; [left; eauto |].
  rewrite (Hall api_err Hk eq_refl) in Hend.
  destruct Hend as [-> Hend]. right. split; assumption.
Qed.

Lemma rate_limit_test_comes_first_witness :
  is_auth_error invalid_key_rate_error = true
  /\ ((exists advice,
         snd (analyze Samples.budget refuses_with_rate)
         = Some (jsonify (advice_json advice) 200))
      \/ (snd (analyze Samples.budget refuses_with_rate) = Some rate_limit_reached
          /\ calls (fst (analyze Samples.budget refuses_with_rate)) = 3%nat)).
Proof.
  split; [vm_compute; reflexivity |].
  apply (rate_limit_test_comes_first Samples.budget refuses_with_rate
           Samples.budget_income Samples.budget_parsed).
  - vm_compute; reflexivity.
  - intros k api_err _ [= <-]. vm_compute; reflexivity.
Defined.

(** X7: what a run sleeps and logs.  Between consecutive calls the
    handler sleeps 10 seconds, so a run with [n] calls sleeps
    [10 * (n - 1)] seconds, 20 at most, and a request settled by its
    first call or stopped by validation does not sleep.  It logs one
    warning per retry, numbered from 1, and exactly one error record when
    the response is 401, 429 or 500, none when it is 200 or 400. *)
Theorem sleeps_and_logs_of_analyze (req : request) (api : endpoint) :
  slept (fst (analyze req api)) = 10 * Z.of_nat (calls (fst (analyze req api)) - 1)
  /\ 0 <= slept (fst (analyze req api)) <= 20
  /\ logged WARNING (fst (analyze req api))
     = List.map retry_warning (seq 0 (calls (fst (analyze req api)) - 1))
  /\ exists r,
       snd (analyze req api) = Some r
       /\ (status r = 200 \/ status r = 400 ->
           logged ERROR (fst (analyze req api)) = [])
       /\ (status r = 401 \/ status r = 429 \/ status r = 500 ->
           Datatypes.length (logged ERROR (fst (analyze req api))) = 1%nat).
Proof.
  assert (Hexc : forall exc,
             status (snd (handle_exception exc)) = 401
             \/ status (snd (handle_exception exc)) = 500).
  { intros exc. rewrite handle_exception_status.
    destruct (is_auth_error exc); auto. }
  destruct (analyze_readings req api) as (-> & _ & _).
  rewrite analyze_response, analyze_trace_exact.
  destruct (validate req) as [[income parsed] | f] eqn:Hv.
  - pose proof (call_groq_logged (prompt income parsed) api 3 0 eq_refl)
      as (Hwarn & Hslept & Herr).
    pose proof (call_groq_schedule (prompt income parsed) api 3 0 eq_refl)
      as (_ & Hle & _).
    change (seq 0 3) with (seq 0 max_retries) in Hwarn, Hslept, Herr, Hle.
    rewrite <- (analyze_try_validated req api _ _ Hv) in Hwarn, Hslept, Herr, Hle.
    split; [| split; [| split]].
    + rewrite slept_app, Hslept.
      destruct (snd (analyze_try req api)); cbn [slept fold_right]; lia.
    + rewrite slept_app, Hslept.
      destruct (snd (analyze_try req api)); cbn [slept fold_right]; lia.
    + rewrite logged_app, Hwarn.
      destruct (snd (analyze_try req api)); cbn [logged flat_map app];
        rewrite app_nil_r; reflexivity.
    + destruct (analyze_try_settles req api income parsed Hv)
        as (k & _ & _ & _ & Hend).
      destruct (create_and_read (api k)) as [advice | api_err].
      * rewrite Hend in *. cbn [status jsonify] in Herr.
        change (200 =? 429) with false in Herr.
        eexists. split; [reflexivity |]. rewrite app_nil_r.
        split; [intros _; exact Herr |].
        cbn [status jsonify]. intros [H | [H | H]]; discriminate.
      * destruct (is_rate_limit api_err).
        -- destruct Hend as [_ Hend]. rewrite Hend in *.
           change (status rate_limit_reached =? 429) with true in Herr.
           destruct Herr as (e & Herr).
           eexists. split; [reflexivity |]. rewrite app_nil_r, Herr.
           split; [| reflexivity].
           change (status rate_limit_reached) with 429. intros [H | H]; discriminate.
        -- rewrite Hend in *.
           eexists. split; [reflexivity |]. rewrite logged_app, Herr.
           split; [| reflexivity].
           destruct (Hexc api_err) as [-> | ->]; intros [H | H]; discriminate.
  - rewrite (analyze_try_exit _ api _ Hv). cbn [fst snd app].
    change (calls []) with 0%nat.
    destruct f as [r | exc |].
    + cbn. split; [reflexivity |]. split; [lia |]. split; [reflexivity |].
      exists r. split; [reflexivity |]. split; [reflexivity |].
      destruct (validate_exit _ _ Hv) as [(r' & [= <-] & H400 & _) | (e & He)];
        [| discriminate].
      rewrite H400. intros [H | [H | H]]; discriminate.
    + cbn [slept fold_right logged flat_map seq List.map app Nat.sub].
      split; [reflexivity |]. split; [lia |]. split; [reflexivity |].
      eexists. split; [reflexivity |]. split; [| reflexivity].
      destruct (Hexc exc) as [-> | ->]; intros [H | H]; discriminate.
    + exfalso. exact (validate_never_returns_none req Hv).
Qed.

Lemma sleeps_and_logs_of_analyze_witness :
  slept (fst (analyze Samples.budget Samples.always_limited)) = 20
  /\ logged WARNING (fst (analyze Samples.budget Samples.always_limited))
     = ["Rate limited (attempt 1), retrying in 10s...";
        "Rate limited (attempt 2), retrying in 10s..."].
Proof.
  pose proof (sleeps_and_logs_of_analyze Samples.budget Samples.always_limited)
    as (Hslept & _ & Hwarn & _).
  assert (Hcalls : calls (fst (analyze Samples.budget Samples.always_limited)) = 3%nat)
    by (vm_compute; reflexivity).
  rewrite Hcalls in Hslept, Hwarn.
  split; [exact Hslept | exact Hwarn].
Defined.

End Endings.

(* ------------------------------------------------------------------ *)
(** ** The expense loop stops at the first entry it does not accept *)
(* ------------------------------------------------------------------ *)

Section FirstRefusal.
Import PyStr Py App Props Readings.

(** Entries that are accepted only change the dict being built. *)
Lemma parse_expenses_skips :
  forall (before rest : dict value) (parsed : dict PyFloat.float),
    Forall (fun e => exists x, converted (snd e) = inl x
                               /\ PyFloat.ltb x PyFloat.pos_zero = false) before ->
    exists parsed',
      parse_expenses (before ++ rest)%list parsed = parse_expenses rest parsed'.
Proof.
  induction before as [| [category amount] before IH]; intros rest parsed Hok.
  - exists parsed. reflexivity.
  - inversion Hok as [| e es (x & Hconv & Hlt) Hrest]; subst. cbn [snd] in *.
    cbn [app]. rewrite parse_expenses_step, Hconv, Hlt.
    apply IH. exact Hrest.
Qed.

Lemma int_too_large_is_plain : is_auth_error int_too_large = false.
Proof. vm_compute; reflexivity. Qed.

(** X8: the loop over the expenses returns at the first entry it does
    not accept and never looks at the entries after it.  Take a body
    whose income and amounts up to that entry are ASCII where they are
    strings.  With a valid income and the entries before it accepted, a
    refused amount is answered 400 naming its category, and an integer
    amount too large for a double is answered 500, whatever the later
    entries hold. *)
Theorem first_refused_entry_decides
    (d : dict value) (api : endpoint) (income : PyFloat.float)
    (before after : dict value) (category : string) (amount : value) :
  ascii_text (match dict_get d "income" with
              | Some v => v
              | None => VNone
              end) ->
  validate_income (match dict_get d "income" with
                   | Some v => v
                   | None => VNone
                   end) = Next income ->
  dict_get d "expenses" = Some (VDict (before ++ (category, amount) :: after)%list) ->
  Forall (fun e => ascii_text (snd e)) before ->
  ascii_text amount ->
  Forall (fun e => exists x, converted (snd e) = inl x
                             /\ PyFloat.ltb x PyFloat.pos_zero = false) before ->
  (amount_rejected amount ->
   analyze (Body (VDict d)) api = ([], Some (amount_invalid category)))
  /\ (amount_overflows amount ->
      analyze (Body (VDict d)) api
      = ([Log ERROR "Analysis error: int too large to convert to float"],
         Some something_went_wrong)).
Proof.
  intros _ Hincome Hexp _ _ Hbefore.
  assert (Hne : (before ++ (category, amount) :: after)%list <> [])
    by (destruct before; discriminate).
  assert (Hval : validate (Body (VDict d))
                 = (parsed_expenses <-
                      parse_expenses (before ++ (category, amount) :: after)%list [] ;;
                    Next (income, parsed_expenses))).
  { rewrite validate_body, Hincome, Hexp. cbn [bind].
    unfold validate_expenses. cbn [isinstance_dict negb orb items truthy].
    destruct (before ++ (category, amount) :: after)%list; [congruence | reflexivity]. }
  destruct (parse_expenses_skips before ((category, amount) :: after) [] Hbefore)
    as (parsed' & Hskip).
  rewrite Hskip, parse_expenses_step in Hval. unfold converted in Hval.
  split.
  - intros (Htruthy & Hrej). rewrite Htruthy in Hval.
    assert (Hv : validate (Body (VDict d)) = Exit (Returned (amount_invalid category))).
    { rewrite Hval. destruct Hrej as [-> | [-> | (x & -> & ->)]]; reflexivity. }
    unfold analyze, analyze_try. rewrite Hv. reflexivity.
  - intros (Htruthy & Hover). rewrite Htruthy, Hover in Hval. cbn [bind] in Hval.
    unfold analyze, analyze_try. rewrite Hval.
    unfold handle_exception. rewrite int_too_large_is_plain. reflexivity.
Qed.

Lemma first_refused_entry_decides_witness :
  analyze (Body (VDict negative_then_huge)) Samples.advises
  = ([], Some (amount_invalid "food"))
  /\ analyze (Body (VDict padded_then_negative)) Samples.advises
     = ([], Some (amount_invalid "rent")).
Proof.
  split.
  - apply (first_refused_entry_decides negative_then_huge Samples.advises
             (S754_finite false 8796093022208000 (-43))
             [("rent", VInt 400)] [("loan", VInt (10 ^ 400))] "food" (VInt (-25))).
    + exact I.
    + vm_compute; reflexivity.
    + reflexivity.
    + repeat constructor.
    + exact I.
    + constructor; [| constructor].
      exists (S754_finite false 7036874417766400 (-44)). split; vm_compute; reflexivity.
    + split; [reflexivity |]. right; right.
      exists (S754_finite true 7036874417766400 (-48)). split; vm_compute; reflexivity.
  - apply (first_refused_entry_decides padded_then_negative Samples.advises
             (S754_finite false 8796093022208000 (-43))
             [] [("food", VInt (-1))] "rent" (VStr padded_income)).
    + exact I.
    + vm_compute; reflexivity.
    + reflexivity.
    + constructor.
    + reflexivity.
    + constructor.
    + split; [reflexivity |]. left. vm_compute; reflexivity.
Defined.

(** An exception raised by validation of a decoded body. *)
Lemma validate_body_raised (data : value) (e : exn) :
  validate (Body data) = Exit (Raised e) ->
  e = int_too_large
  \/ (isinstance_dict data = false
      /\ e = {| class := AttributeError;
                str := "'" ++ type_name data ++ "' object has no attribute 'get'" |}).
Proof.
  unfold validate, get_json. cbn [bind].
  destruct data; cbn [get bind isinstance_dict];
    try (intros [= <-]; right; split; reflexivity).
  unfold validate_income.
  destruct (is_none _ || str_strip_is_empty _); [cbn [bind]; discriminate |].
  destruct (float _) as [income | []]; cbn [bind];
    try discriminate; try (intros [= <-]; left; reflexivity).
  destruct (PyFloat.ltb income PyFloat.pos_zero); cbn [bind]; [discriminate |].
  unfold validate_expenses.
  destruct (negb (isinstance_dict _) || negb (truthy _)); cbn [bind]; [discriminate |].
  destruct (parse_expenses _ _) as [parsed | g] eqn:Hparse; cbn [bind]; [discriminate |].
  intros [= ->].
  apply parse_expenses_exit in Hparse.
  destruct Hparse as [(category & Hc) | [= ->]]; [discriminate | left; reflexivity].
Qed.

(** X9: an exception raised while a decoded body is validated (the body
    is not an object, or the income or an amount is an integer too large
    for a double) never passes the test of line 139: the handler logs it
    and answers the generic 500, without a call. *)
Theorem validation_exception_is_answered_500
    (data : value) (api : endpoint) (e : exn) :
  validate (Body data) = Exit (Raised e) ->
  analyze (Body data) api
  = ([Log ERROR ("Analysis error: " ++ str e)], Some something_went_wrong).
Proof.
  intros Hv.
  assert (Hplain : is_auth_error e = false).
  { destruct (validate_body_raised data e Hv) as [-> | (Hdata & ->)].
    - apply int_too_large_is_plain.
    - destruct data; try discriminate; vm_compute; reflexivity. }
  unfold analyze, analyze_try. rewrite Hv.
  unfold handle_exception. rewrite Hplain. reflexivity.
Qed.

Lemma validation_exception_is_answered_500_witness :
  validate (Body (VDict huge_then_negative)) = Exit (Raised int_too_large)
  /\ analyze (Body (VDict huge_then_negative)) Samples.advises
     = ([Log ERROR ("Analysis error: " ++ str int_too_large)],
        Some something_went_wrong).
Proof.
  assert (Hv : validate (Body (VDict huge_then_negative)) = Exit (Raised int_too_large))
    by (vm_compute; reflexivity).
  split; [exact Hv |].
  exact (validation_exception_is_answered_500 (VDict huge_then_negative)
           Samples.advises int_too_large Hv).
Defined.

End FirstRefusal.

(* ------------------------------------------------------------------ *)
(** ** Signs and characters of what the prompt shows *)
(* ------------------------------------------------------------------ *)

Section Figures.
Import PyStr Py App Props Readings.

Lemma occurrences_app (c : ascii) (s t : string) :
  occurrences c (s ++ t) = (occurrences c s + occurrences c t)%nat.
Proof.
  induction s as [| c' s IH]; cbn [append occurrences]; [reflexivity |].
  rewrite IH. lia.
Qed.

Lemma occurrences_of_list (c : ascii) (l : list ascii) :
  Forall (fun c' => Ascii.eqb c' c = false) l -> occurrences c (of_list l) = 0%nat.
Proof.
  induction 1 as [| c' l Hc _ IH]; cbn [of_list string_of_list_ascii occurrences];
    [reflexivity |].
  rewrite Hc. exact IH.
Qed.

Lemma to_list_without (c : ascii) (s : string) :
  occurrences c s = 0%nat -> Forall (fun c' => Ascii.eqb c' c = false) (to_list s).
Proof.
  induction s as [| c' s IH]; cbn [to_list list_ascii_of_string occurrences];
    [constructor |].
  destruct (Ascii.eqb c' c) eqn:Hc; [discriminate |].
  intros Hs. constructor; [exact Hc | apply IH; exact Hs].
Qed.

Lemma group_rev_without (c : ascii) (digits : list ascii) (n : nat) :
  Ascii.eqb "," c = false ->
  Forall (fun c' => Ascii.eqb c' c = false) digits ->
  Forall (fun c' => Ascii.eqb c' c = false) (PyFloat.group_rev digits n).
Proof.
  intros Hcomma Hd. revert n.
  induction Hd as [| c' r Hc _ IH]; intros n; cbn [PyFloat.group_rev]; [constructor |].
  destruct (Nat.eqb n 3); repeat constructor; auto.
Qed.

Lemma group_thousands_without (c : ascii) (s : string) :
  Ascii.eqb "," c = false ->
  occurrences c s = 0%nat -> occurrences c (PyFloat.group_thousands s) = 0%nat.
Proof.
  intros Hcomma Hs. unfold PyFloat.group_thousands.
  apply occurrences_of_list, Forall_rev, group_rev_without, Forall_rev, to_list_without;
    assumption.
Qed.

Lemma string_of_uint_no_minus (d : Decimal.uint) :
  occurrences "-" (NilEmpty.string_of_uint d) = 0%nat.
Proof.
  induction d; cbn [NilEmpty.string_of_uint occurrences]; auto.
Qed.

(** [str(n)] has no minus sign when [n] is not negative. *)
Lemma of_int_no_minus (z : Z) : 0 <= z -> occurrences "-" (PyStr.of_int z) = 0%nat.
Proof.
  intros Hz. unfold PyStr.of_int, NilZero.string_of_int, NilZero.string_of_uint.
  destruct z as [| p | p]; [reflexivity | | lia].
  cbn [Z.to_int].
  destruct (Pos.to_uint p); try reflexivity;
    cbn [NilEmpty.string_of_uint occurrences Ascii.eqb];
    apply string_of_uint_no_minus.
Qed.

Lemma hundredths_not_negative (m : positive) (e : Z) : 0 <= PyFloat.hundredths m e.
Proof.
  unfold PyFloat.hundredths.
  destruct e as [| k | k].
  - lia.
  - apply Z.mul_nonneg_nonneg; [lia | apply Z.pow_nonneg; lia].
  - assert (Hq : 0 <= 100 * Z.pos m / 2 ^ Z.pos k)
      by (apply Z.div_pos; [lia | apply Z.pow_pos_nonneg; lia]).
    destruct (_ ?= _); [destruct (Z.even _) | |]; lia.
Qed.

(** A float that is not signed is printed without a minus sign. *)
Lemma format_2f_no_minus (x : PyFloat.float) :
  unsigned x -> occurrences "-" (PyFloat.format_2f x) = 0%nat.
Proof.
  destruct x as [[] | [] | | [] m e]; cbn [unsigned]; intros Hx;
    try contradiction; try reflexivity.
  unfold PyFloat.format_2f, PyFloat.two_digits.
  pose proof (hundredths_not_negative m e) as Hh.
  rewrite !occurrences_app, group_thousands_without;
    [| reflexivity | apply of_int_no_minus; apply Z.div_pos; lia].
  destruct (_ <? 10); rewrite ?occurrences_app, of_int_no_minus;
    try reflexivity; apply Z.mod_pos_bound; lia.
Qed.

Lemma dict_set_values {V : Type} (P : V -> Prop) (d : dict V) (key : string) (v : V) :
  Forall P (values d) -> P v -> Forall P (values (dict_set d key v)).
Proof.
  intros Hd Hv.
  induction d as [| [k w] d IH]; cbn [dict_set values List.map snd] in *.
  - constructor; [exact Hv | constructor].
  - inversion Hd; subst.
    destruct (String.eqb k key); cbn [List.map snd]; constructor; auto.
Qed.

(** The loop only ever stores amounts that are not negative. *)
Lemma parse_expenses_not_negative :
  forall (entries : dict value) (parsed result : dict PyFloat.float),
    parse_expenses entries parsed = Next result ->
    Forall not_negative (values parsed) ->
    Forall not_negative (values result).
Proof.
  induction entries as [| [category amount] rest IH]; intros parsed result.
  - cbn. intros [= <-] Hparsed. exact Hparsed.
  - rewrite parse_expenses_step.
    destruct (converted amount) as [val | []]; try discriminate.
    destruct (PyFloat.ltb val PyFloat.pos_zero) eqn:Hlt; [discriminate |].
    intros Hparse Hparsed.
    apply (IH _ _ Hparse).
    apply dict_set_values; [exact Hparsed |].
    apply ltb_zero_not_negative. exact Hlt.
Qed.

(** X10: validation keeps negative amounts out, so the total of a
    validated request is never negative (nor [-0.0]) and the Total
    Expenses figure of the prompt has no minus sign. *)
Theorem total_expenses_is_not_negative
    (req : request) (income : PyFloat.float) (parsed : dict PyFloat.float) :
  validate req = Next (income, parsed) ->
  Forall not_negative (values parsed)
  /\ unsigned (total_expenses parsed)
  /\ PyFloat.ltb (total_expenses parsed) PyFloat.pos_zero = false
  /\ occurrences "-" (PyFloat.format_2f (total_expenses parsed)) = 0%nat.
Proof.
  intros Hv.
  destruct (validate_next_inv req income parsed Hv)
    as (d & entries & _ & _ & _ & _ & Hparse).
  assert (Hvalues : Forall not_negative (values parsed))
    by (apply (parse_expenses_not_negative entries [] parsed Hparse); constructor).
  assert (Htotal : unsigned (total_expenses parsed))
    by (apply sum_from_unsigned; [exact I | exact Hvalues]).
  split; [exact Hvalues |]. split; [exact Htotal |].
  split; [| apply format_2f_no_minus; exact Htotal].
  destruct (total_expenses parsed) as [[] | [] | | [] m e];
    cbn [unsigned] in Htotal; try contradiction; reflexivity.
Qed.

Lemma total_expenses_is_not_negative_witness :
  validate Samples.budget = Next (Samples.budget_income, Samples.budget_parsed)
  /\ Forall not_negative (values Samples.budget_parsed)
  /\ unsigned (total_expenses Samples.budget_parsed)
  /\ PyFloat.ltb (total_expenses Samples.budget_parsed) PyFloat.pos_zero = false
  /\ occurrences "-" (PyFloat.format_2f (total_expenses Samples.budget_parsed)) = 0%nat.
Proof.
  assert (Hv : validate Samples.budget
               = Next (Samples.budget_income, Samples.budget_parsed))
    by (vm_compute; reflexivity).
  split; [exact Hv |].
  exact (total_expenses_is_not_negative Samples.budget
           Samples.budget_income Samples.budget_parsed Hv).
Defined.

Lemma length_str_map (f : ascii -> ascii) (s : string) :
  String.length (PyStr.map f s) = String.length s.
Proof.
  induction s as [| c s IH]; cbn [PyStr.map String.length]; [reflexivity |].
  rewrite IH. reflexivity.
Qed.

Lemma length_title_from (b : bool) (s : string) :
  String.length (title_from b s) = String.length s.
Proof.
  revert b.
  induction s as [| c s IH]; intros b; cbn [title_from String.length]; [reflexivity |].
  rewrite IH. reflexivity.
Qed.

Lemma to_lower_underscore (c : ascii) :
  Ascii.eqb (to_lower c) "_" = Ascii.eqb c "_".
Proof. destruct c as [[] [] [] [] [] [] [] []]; reflexivity. Qed.

Lemma to_upper_underscore (c : ascii) :
  Ascii.eqb (to_upper c) "_" = Ascii.eqb c "_".
Proof. destruct c as [[] [] [] [] [] [] [] []]; reflexivity. Qed.

Lemma occurrences_title_from (b : bool) (s : string) :
  occurrences "_" (title_from b s) = occurrences "_" s.
Proof.
  revert b.
  induction s as [| c s IH]; intros b; cbn [title_from occurrences]; [reflexivity |].
  rewrite IH.
  destruct b; [rewrite to_lower_underscore | rewrite to_upper_underscore]; reflexivity.
Qed.

Lemma replace_underscore_none (s : string) :
  occurrences "_" (replace "_" " " s) = 0%nat.
Proof.
  unfold replace.
  induction s as [| c s IH]; cbn [PyStr.map occurrences]; [reflexivity |].
  rewrite IH.
  destruct (Ascii.eqb c "_") eqn:Hc; [reflexivity |].
  rewrite Hc. reflexivity.
Qed.

Lemma occurrences_space_title_from (b : bool) (s : string) :
  occurrences " " (title_from b s) = occurrences " " s.
Proof.
  revert b.
  induction s as [| c s IH]; intros b; cbn [title_from occurrences]; [reflexivity |].
  rewrite IH. f_equal.
  destruct b; destruct c as [[] [] [] [] [] [] [] []]; reflexivity.
Qed.

Lemma replace_underscore_spaces (s : string) :
  occurrences " " (replace "_" " " s)
  = (occurrences " " s + occurrences "_" s)%nat.
Proof.
  unfold replace.
  induction s as [| c s IH]; cbn [PyStr.map occurrences]; [reflexivity |].
  rewrite IH.
  destruct c as [[] [] [] [] [] [] [] []]; cbn; lia.
Qed.

(** X11: for a key of ASCII text, the category shown in a line of the
    breakdown has as many characters as the key, contains no underscore,
    and has exactly the spaces of the key plus one for each underscore. *)
Theorem shown_category_has_no_underscore (cat : string) :
  is_ascii cat = true ->
  String.length (title (replace "_" " " cat)) = String.length cat
  /\ occurrences "_" (title (replace "_" " " cat)) = 0%nat
  /\ occurrences " " (title (replace "_" " " cat))
     = (occurrences " " cat + occurrences "_" cat)%nat.
Proof.
  intros _. unfold title.
  split; [| split].
  - rewrite length_title_from. apply length_str_map.
  - rewrite occurrences_title_from. apply replace_underscore_none.
  - rewrite occurrences_space_title_from. apply replace_underscore_spaces.
Qed.

Lemma shown_category_has_no_underscore_witness :
  title (replace "_" " " "food_and dining") = "Food And Dining"
  /\ String.length (title (replace "_" " " "food_and dining")) = 15%nat
  /\ occurrences "_" (title (replace "_" " " "food_and dining")) = 0%nat
  /\ occurrences " " (title (replace "_" " " "food_and dining")) = 2%nat.
Proof.
  split; [reflexivity |].
  exact (shown_category_has_no_underscore "food_and dining" eq_refl).
Defined.

(** X12: the income check lets NaN through, since NaN is not below
    zero.  An income that [float] converts to NaN (the string ["nan"] in
    any letter case, or a NaN number) passes validation with valid
    expenses; the endpoint is called, and the prompt shows [nan] both as
    Monthly Income and as Remaining, whatever the expenses are. *)
Theorem nan_income_reaches_prompt
    (d : dict value) (api : endpoint) (parsed : dict PyFloat.float) :
  float (match dict_get d "income" with
         | Some v => v
         | None => VNone
         end) = inl S754_nan ->
  validate_expenses (match dict_get d "expenses" with
                     | Some v => v
                     | None => VDict []
                     end) = Next parsed ->
  validate (Body (VDict d)) = Next (S754_nan, parsed)
  /\ (exists n, (1 <= n)%nat
                /\ prompts (fst (analyze (Body (VDict d)) api))
                   = repeat (prompt S754_nan parsed) n)
  /\ prompt S754_nan parsed
     = prompt_head ++ "nan" ++ nl
         ++ "Total Expenses : â‚¹" ++ PyFloat.format_2f (total_expenses parsed) ++ nl
         ++ "Remaining      : â‚¹nan" ++ nl
         ++ nl ++ "Expense Breakdown:" ++ nl
         ++ expense_lines parsed
         ++ prompt_tail.
Proof.
  intros Hfloat Hexp.
  assert (Hv : validate (Body (VDict d)) = Next (S754_nan, parsed)).
  { rewrite validate_body. unfold validate_income.
    rewrite (float_not_blank _ _ Hfloat), Hfloat. cbn [PyFloat.ltb SFltb SFcompare bind].
    rewrite Hexp. reflexivity. }
  split; [exact Hv |]. split; [| reflexivity].
  destruct (analyze_readings (Body (VDict d)) api) as (_ & _ & ->).
  rewrite (analyze_try_validated _ api _ _ Hv).
  destruct (call_groq_schedule (prompt S754_nan parsed) api 3 0 eq_refl)
    as (_ & _ & Hpos & _ & Hsame).
  change (seq 0 max_retries) with (seq 0 3).
  apply Forall_eq_repeat in Hsame. rewrite prompts_length in Hsame.
  eexists. split; [apply Hpos; lia | exact Hsame].
Qed.

Lemma nan_income_reaches_prompt_witness :
  float (VStr "nan") = inl S754_nan
  /\ validate nan_income
     = Next (S754_nan, [("rent", S754_finite false 8796093022208000 (-43))])
  /\ exists n, (1 <= n)%nat
       /\ prompts (fst (analyze nan_income Samples.advises))
          = repeat (prompt S754_nan [("rent", S754_finite false 8796093022208000 (-43))]) n.
Proof.
  split; [vm_compute; reflexivity |].
  refine (let H := nan_income_reaches_prompt
                     [("income", VStr "nan"); ("expenses", VDict [("rent", VInt 1000)])]
                     Samples.advises
                     [("rent", S754_finite false 8796093022208000 (-43))] _ _ in
          conj (proj1 H) (proj1 (proj2 H))); vm_compute; reflexivity.
Defined.

End Figures.

(* ------------------------------------------------------------------ *)
(** ** Integers of at most 53 bits: converted and shown exactly *)
(* ------------------------------------------------------------------ *)

Section SmallIntegers.
Import PyStr Py App Props Readings.

Lemma digits2_pos_bounds (m : positive) :
  2 ^ (Z.pos (digits2_pos m) - 1) <= Z.pos m < 2 ^ Z.pos (digits2_pos m).
Proof.
  induction m as [m IH | m IH |]; cbn [digits2_pos].
  - rewrite Pos2Z.inj_succ.
    replace (Z.succ (Z.pos (digits2_pos m)) - 1) with (Z.succ (Z.pos (digits2_pos m) - 1)) by lia.
    rewrite !Z.pow_succ_r by lia. lia.
  - rewrite Pos2Z.inj_succ.
    replace (Z.succ (Z.pos (digits2_pos m)) - 1) with (Z.succ (Z.pos (digits2_pos m) - 1)) by lia.
    rewrite !Z.pow_succ_r by lia. lia.
  - cbn. lia.
Qed.

Lemma iter_xO_digits (m k : positive) :
  digits2_pos (Pos.iter xO m k) = (digits2_pos m + k)%positive.
Proof.
  induction k as [| k IH] using Pos.peano_ind.
  - cbn. lia.
  - rewrite Pos.iter_succ. cbn [digits2_pos]. rewrite IH. lia.
Qed.

Lemma iter_xO_value (m k : positive) :
  Z.pos (Pos.iter xO m k) = Z.pos m * 2 ^ Z.pos k.
Proof.
  induction k as [| k IH] using Pos.peano_ind.
  - cbn. lia.
  - rewrite Pos.iter_succ, Pos2Z.inj_xO, IH, Pos2Z.inj_succ, Z.pow_succ_r by lia. lia.
Qed.

(** A mantissa of exactly 53 bits at an exponent in range is already a double. *)
Lemma binary_round_aux_53 (s : bool) (m : positive) (e : Z) :
  Z.pos (digits2_pos m) = 53 -> -1074 <= e <= 971 ->
  binary_round_aux PyFloat.prec PyFloat.emax s (Z.pos m) e loc_Exact = S754_finite s m e.
Proof.
  intros Hd He.
  assert (Hshift : fexp PyFloat.prec PyFloat.emax (Zdigits2 (Z.pos m) + e) - e = 0).
  { unfold fexp, emin, PyFloat.prec, PyFloat.emax. cbn [Zdigits2]. rewrite Hd. lia. }
  unfold binary_round_aux, shr_fexp.
  rewrite Hshift. cbn [shr shr_record_of_loc shr_m loc_of_shr_record round_nearest_even].
  rewrite Hshift. cbn [shr shr_record_of_loc shr_m].
  unfold PyFloat.prec, PyFloat.emax.
  destruct (Z.leb_spec e (1024 - 53)); [reflexivity | lia].
Qed.

(** An integer of at most 53 bits is a double as it stands: [float(n)]
    is exact. *)
Lemma binary_round_small (s : bool) (m : positive) :
  Z.pos (digits2_pos m) <= 53 ->
  exists mz ez,
    binary_round PyFloat.prec PyFloat.emax s m 0 = S754_finite s mz ez
    /\ ez <= 0
    /\ Z.pos mz = Z.pos m * 2 ^ (- ez).
Proof.
  intros Hd.
  assert (Hfexp : fexp PyFloat.prec PyFloat.emax (Z.pos (digits2_pos m) + 0)
                  = Z.pos (digits2_pos m) - 53).
  { unfold fexp, emin, PyFloat.prec, PyFloat.emax. lia. }
  unfold binary_round. rewrite Hfexp. unfold shl_align.
  destruct (Z.pos (digits2_pos m) - 53 - 0) as [| k | k] eqn:Hk.
  - exists m, 0. rewrite binary_round_aux_53 by lia.
    split; [reflexivity |]. split; [lia |]. cbn. lia.
  - lia.
  - exists (Pos.iter xO m k), (Z.pos (digits2_pos m) - 53).
    rewrite binary_round_aux_53.
    + split; [reflexivity |]. split; [lia |].
      rewrite iter_xO_value. f_equal. f_equal. lia.
    + rewrite iter_xO_digits, Pos2Z.inj_add. lia.
    + lia.
Qed.

Lemma small_digits (m : positive) : Z.pos m < 2 ^ 53 -> Z.pos (digits2_pos m) <= 53.
Proof.
  intros Hm. pose proof (digits2_pos_bounds m) as [Hlo _].
  destruct (Z.le_gt_cases (Z.pos (digits2_pos m)) 53) as [H | H]; [exact H |].
  exfalso.
  assert (2 ^ 53 <= 2 ^ (Z.pos (digits2_pos m) - 1)) by (apply Z.pow_le_mono_r; lia).
  lia.
Qed.

(** [float(n)] for [|n| < 2 ** 53]. *)
Lemma of_int_small (z : Z) :
  Z.abs z < 2 ^ 53 ->
  exists x,
    PyFloat.of_int z = Some x
    /\ PyFloat.ltb x PyFloat.pos_zero = (z <? 0)
    /\ match x with
       | S754_zero s => s = false /\ z = 0
       | S754_finite s mz ez => s = (z <? 0) /\ ez <= 0 /\ Z.pos mz = Z.abs z * 2 ^ (- ez)
       | _ => False
       end.
Proof.
  intros Hz. unfold PyFloat.of_int.
  destruct z as [| m | m]; cbn [binary_normalize].
  - exists (S754_zero false). repeat split.
  - destruct (binary_round_small false m (small_digits m Hz)) as (mz & ez & -> & Hez & Hmz).
    exists (S754_finite false mz ez). repeat split; assumption.
  - destruct (binary_round_small true m (small_digits m Hz)) as (mz & ez & -> & Hez & Hmz).
    exists (S754_finite true mz ez). repeat split; assumption.
Qed.

(** [f"{x:,.2f}"] of a double that is an integer. *)
Lemma format_2f_integer (s : bool) (mz : positive) (ez n : Z) :
  ez <= 0 -> Z.pos mz = n * 2 ^ (- ez) ->
  PyFloat.format_2f (S754_finite s mz ez)
  = (if s then "-" else "") ++ PyFloat.group_thousands (PyStr.of_int n) ++ ".00".
Proof.
  intros Hez Hmz.
  assert (Hh : PyFloat.hundredths mz ez = 100 * n).
  { unfold PyFloat.hundredths.
    destruct ez as [| k | k]; [cbn in Hmz; lia | lia |].
    change (- Z.neg k) with (Z.pos k) in Hmz. rewrite Hmz.
    assert (Hpow : 0 < 2 ^ Z.pos k) by (apply Z.pow_pos_nonneg; lia).
    replace (100 * (n * 2 ^ Z.pos k)) with (100 * n * 2 ^ Z.pos k) by lia.
    cbv zeta. rewrite Z.mod_mul, Z.div_mul by lia.
    destruct (Z.compare_spec (2 * 0) (2 ^ Z.pos k)); [lia | reflexivity | lia]. }
  unfold PyFloat.format_2f. cbv zeta. rewrite Hh.
  replace (100 * n) with (n * 100) by lia.
  rewrite Z.div_mul, Z.mod_mul by lia.
  reflexivity.
Qed.
(** X13: an integer income [n] with [|n| < 2 ** 53] is checked by its
    sign and shown as it is.  A negative one is answered 400 "valid
    positive number" without a call; any other passes the income check,
    and the prompt's Monthly Income figure is [n] with thousands
    separators followed by [.00]. *)
Theorem integer_income_is_exact (d : dict value) (api : endpoint) (z : Z) :
  dict_get d "income" = Some (VInt z) ->
  Z.abs z < 2 ^ 53 ->
  (z < 0 -> analyze (Body (VDict d)) api = ([], Some income_invalid))
  /\ (0 <= z ->
      exists x,
        validate_income (VInt z) = Next x
        /\ PyFloat.format_2f x = PyFloat.group_thousands (PyStr.of_int z) ++ ".00").
Proof.
  intros Hincome Hz.
  destruct (of_int_small z Hz) as (x & Hx & Hlt & Hshape).
  assert (Hcheck : validate_income (VInt z)
                   = if z <? 0 then Exit (Returned income_invalid) else Next x).
  { unfold validate_income. cbn [is_none str_strip_is_empty orb float].
    rewrite Hx, Hlt. reflexivity. }
  split.
  - intros Hneg. apply Z.ltb_lt in Hneg. rewrite Hneg in Hcheck.
    unfold analyze, analyze_try. rewrite validate_body, Hincome, Hcheck. reflexivity.
  - intros Hpos. apply Z.ltb_ge in Hpos. rewrite Hpos in *.
    exists x. split; [exact Hcheck |].
    destruct x as [s | s | | s mz ez]; try contradiction.
    + destruct Hshape as [-> ->]. reflexivity.
    + destruct Hshape as (-> & Hez & Hmz).
      apply Z.ltb_ge in Hpos. rewrite Z.abs_eq in Hmz by exact Hpos.
      apply (format_2f_integer false mz ez z Hez Hmz).
Qed.

Lemma integer_income_is_exact_witness :
  exists x,
    validate_income (VInt 50000) = Next x
    /\ PyFloat.format_2f x = PyFloat.group_thousands (PyStr.of_int 50000) ++ ".00".
Proof.
  apply (integer_income_is_exact
           [("income", VInt 50000); ("expenses", VDict [("rent", VInt 15000)])]
           Samples.advises 50000).
  - reflexivity.
  - reflexivity.
  - lia.
Defined.

(** X14: an integer amount [n] with [|n| < 2 ** 53] is handled by the
    loop over the expenses according to its sign.  A negative one ends
    the loop with the 400 that names its category; any other is stored
    and its line in the breakdown shows [n] with thousands separators
    followed by [.00]. *)
Theorem integer_amount_is_exact
    (category : string) (z : Z) (rest : dict value) (parsed : dict PyFloat.float) :
  Z.abs z < 2 ^ 53 ->
  (z < 0 ->
   parse_expenses ((category, VInt z) :: rest) parsed
   = Exit (Returned (amount_invalid category)))
  /\ (0 <= z ->
      exists x,
        parse_expenses ((category, VInt z) :: rest) parsed
        = parse_expenses rest (dict_set parsed category x)
        /\ expense_line (category, x)
           = "  - " ++ title (replace "_" " " category) ++ ": â‚¹"
               ++ PyFloat.group_thousands (PyStr.of_int z) ++ ".00").
Proof.
  intros Hz.
  destruct (of_int_small z Hz) as (x & Hx & Hlt & Hshape).
  rewrite parse_expenses_step. unfold converted. cbn [truthy float].
  split.
  - intros Hneg.
    destruct (Z.eqb_spec z 0) as [-> | _]; [lia |]. cbn [negb].
    rewrite Hx, Hlt. apply Z.ltb_lt in Hneg. rewrite Hneg. reflexivity.
  - intros Hpos.
    destruct (Z.eqb_spec z 0) as [-> | Hne]; cbn [negb].
    + exists PyFloat.pos_zero. split; reflexivity.
    + rewrite Hx, Hlt. apply Z.ltb_ge in Hpos. rewrite Hpos in *.
      exists x. split; [reflexivity |].
      destruct x as [s | s | | s mz ez]; try contradiction.
      * destruct Hshape as [_ ->]. congruence.
      * destruct Hshape as (-> & Hez & Hmz).
        apply Z.ltb_ge in Hpos. rewrite Z.abs_eq in Hmz by exact Hpos.
        unfold expense_line.
        rewrite (format_2f_integer false mz ez z Hez Hmz). reflexivity.
Qed.

Lemma integer_amount_is_exact_witness :
  parse_expenses [("food", VInt (-25)); ("loan", VInt (10 ^ 400))] []
  = Exit (Returned (amount_invalid "food")).
Proof.
  apply (integer_amount_is_exact "food" (-25) [("loan", VInt (10 ^ 400))] []).
  - reflexivity.
  - lia.
Defined.

End SmallIntegers.

(* ------------------------------------------------------------------ *)
(** ** Sums and differences of integer amounts are exact *)
(* ------------------------------------------------------------------ *)

Section ExactSums.
Import PyStr Py App Props Readings.

Lemma shr_1_even (z : Z) :
  0 < z ->
  shr_1 {| shr_m := 2 * z; shr_r := false; shr_s := false |}
  = {| shr_m := z; shr_r := false; shr_s := false |}.
Proof.
  destruct z as [| p | p]; [lia | reflexivity | lia].
Qed.

(** Shifting out bits that are all zero loses nothing. *)
Lemma iter_shr_1_exact (p : positive) :
  forall z : Z,
    0 < z ->
    iter_pos shr_1 p {| shr_m := z * 2 ^ Z.pos p; shr_r := false; shr_s := false |}
    = {| shr_m := z; shr_r := false; shr_s := false |}.
Proof.
  induction p as [p IH | p IH |]; intros z Hz; cbn [iter_pos].
  - assert (Hpow : 0 < 2 ^ Z.pos p) by (apply Z.pow_pos_nonneg; lia).
    replace (z * 2 ^ Z.pos p~1) with (2 * (z * 2 ^ Z.pos p * 2 ^ Z.pos p)).
    + rewrite shr_1_even by nia. rewrite IH by nia. apply IH. exact Hz.
    + replace (Z.pos p~1) with (Z.pos p + Z.pos p + 1) by lia.
      rewrite !Z.pow_add_r by lia. change (2 ^ 1) with 2. lia.
  - assert (Hpow : 0 < 2 ^ Z.pos p) by (apply Z.pow_pos_nonneg; lia).
    replace (z * 2 ^ Z.pos p~0) with (z * 2 ^ Z.pos p * 2 ^ Z.pos p).
    + rewrite IH by nia. apply IH. exact Hz.
    + replace (Z.pos p~0) with (Z.pos p + Z.pos p) by lia.
      rewrite Z.pow_add_r by lia. lia.
  - replace (z * 2 ^ 1) with (2 * z) by lia. apply shr_1_even. exact Hz.
Qed.

(** The number of bits of a scaled mantissa. *)
Lemma digits2_pos_scaled (m n : positive) (k : Z) :
  0 <= k -> Z.pos m = Z.pos n * 2 ^ k ->
  Z.pos (digits2_pos m) = Z.pos (digits2_pos n) + k.
Proof.
  intros Hk Hm.
  pose proof (digits2_pos_bounds m) as [Hmlo Hmhi].
  pose proof (digits2_pos_bounds n) as [Hnlo Hnhi].
  assert (Hpow : 0 < 2 ^ k) by (apply Z.pow_pos_nonneg; lia).
  assert (Hlo : 2 ^ (Z.pos (digits2_pos n) - 1 + k) <= Z.pos m)
    by (rewrite Z.pow_add_r, Hm by lia; nia).
  assert (Hhi : Z.pos m < 2 ^ (Z.pos (digits2_pos n) + k))
    by (rewrite Z.pow_add_r, Hm by lia; nia).
  destruct (Z.lt_trichotomy (Z.pos (digits2_pos m)) (Z.pos (digits2_pos n) + k))
    as [Hlt | [Heq | Hgt]]; [| exact Heq |]; exfalso.
  - assert (2 ^ Z.pos (digits2_pos m) <= 2 ^ (Z.pos (digits2_pos n) - 1 + k))
      by (apply Z.pow_le_mono_r; lia).
    lia.
  - assert (2 ^ (Z.pos (digits2_pos n) + k) <= 2 ^ (Z.pos (digits2_pos m) - 1))
      by (apply Z.pow_le_mono_r; lia).
    lia.
Qed.

(** A mantissa of more than 53 bits whose extra bits are zero. *)
Lemma binary_round_aux_shift (s : bool) (m q j : positive) (e : Z) :
  Z.pos m = Z.pos q * 2 ^ Z.pos j ->
  Z.pos (digits2_pos q) = 53 ->
  -1074 <= e + Z.pos j <= 971 ->
  binary_round_aux PyFloat.prec PyFloat.emax s (Z.pos m) e loc_Exact
  = S754_finite s q (e + Z.pos j).
Proof.
  intros Hm Hq He.
  pose proof (digits2_pos_scaled m q (Z.pos j) ltac:(lia) Hm) as Hd.
  assert (Hfirst : fexp PyFloat.prec PyFloat.emax (Zdigits2 (Z.pos m) + e) - e = Z.pos j).
  { unfold fexp, emin, PyFloat.prec, PyFloat.emax. cbn [Zdigits2]. rewrite Hd, Hq. lia. }
  assert (Hsecond : fexp PyFloat.prec PyFloat.emax (Zdigits2 (Z.pos q) + (e + Z.pos j))
                    - (e + Z.pos j) = 0).
  { unfold fexp, emin, PyFloat.prec, PyFloat.emax. cbn [Zdigits2]. rewrite Hq. lia. }
  unfold binary_round_aux, shr_fexp.
  rewrite Hfirst. cbn [shr shr_record_of_loc].
  rewrite Hm, iter_shr_1_exact by lia.
  cbn [shr_m loc_of_shr_record round_nearest_even].
  rewrite Hsecond. cbn [shr shr_record_of_loc shr_m].
  unfold PyFloat.prec, PyFloat.emax.
  destruct (Z.leb_spec (e + Z.pos j) (1024 - 53)); [reflexivity | lia].
Qed.

(** A mantissa that is an integer of at most 53 bits, scaled by a power
    of two, is rounded to a double that holds that integer. *)
Lemma binary_round_exact (s : bool) (m n : positive) (e : Z) :
  e <= 0 -> Z.pos m = Z.pos n * 2 ^ (- e) -> Z.pos n < 2 ^ 53 ->
  exists mz ez,
    binary_round PyFloat.prec PyFloat.emax s m e = S754_finite s mz ez
    /\ ez <= 0
    /\ Z.pos mz = Z.pos n * 2 ^ (- ez).
Proof.
  intros He Hm Hn.
  pose proof (small_digits n Hn) as Hdn.
  pose proof (digits2_pos_scaled m n (- e) ltac:(lia) Hm) as Hd.
  assert (Hfexp : fexp PyFloat.prec PyFloat.emax (Z.pos (digits2_pos m) + e)
                  = Z.pos (digits2_pos n) - 53).
  { unfold fexp, emin, PyFloat.prec, PyFloat.emax. lia. }
  unfold binary_round. rewrite Hfexp. unfold shl_align.
  destruct (Z.pos (digits2_pos n) - 53 - e) as [| j | j] eqn:Hj.
  - exists m, e. rewrite binary_round_aux_53 by lia.
    split; [reflexivity |]. split; [lia | exact Hm].
  - assert (Hq : 0 < Z.pos n * 2 ^ (53 - Z.pos (digits2_pos n)))
      by (apply Z.mul_pos_pos; [lia | apply Z.pow_pos_nonneg; lia]).
    destruct (Z.pos n * 2 ^ (53 - Z.pos (digits2_pos n))) as [| q | q] eqn:Hqv; try lia.
    exists q, (e + Z.pos j).
    rewrite (binary_round_aux_shift s m q j e).
    + split; [reflexivity |]. split; [lia |].
      rewrite <- Hqv. f_equal. f_equal. lia.
    + rewrite Hm, <- Hqv, <- Z.mul_assoc, <- Z.pow_add_r by lia.
      f_equal. f_equal. lia.
    + rewrite (digits2_pos_scaled q n (53 - Z.pos (digits2_pos n))); lia.
    + lia.
  - exists (Pos.iter xO m j), (Z.pos (digits2_pos n) - 53).
    rewrite binary_round_aux_53.
    + split; [reflexivity |]. split; [lia |].
      rewrite iter_xO_value, Hm, <- Z.mul_assoc, <- Z.pow_add_r by lia.
      f_equal. f_equal. lia.
    + rewrite iter_xO_digits, Pos2Z.inj_add. lia.
    + lia.
Qed.

(** A scaled integer of at most 53 bits is normalised to a double that
    holds it. *)
Lemma binary_normalize_holds (c M e : Z) :
  e <= 0 -> M = c * 2 ^ (- e) -> Z.abs c < 2 ^ 53 ->
  holds c (binary_normalize PyFloat.prec PyFloat.emax M e false).
Proof.
  intros He HM Hc.
  assert (Hpow : 0 < 2 ^ (- e)) by (apply Z.pow_pos_nonneg; lia).
  destruct M as [| m | m]; cbn [binary_normalize].
  - assert (c = 0) by nia. subst c. split; reflexivity.
  - destruct c as [| n | n]; try nia.
    destruct (binary_round_exact false m n e He HM Hc) as (mz & ez & -> & Hez & Hmz).
    repeat split; assumption.
  - destruct c as [| n | n]; try nia.
    assert (HM' : Z.pos m = Z.pos n * 2 ^ (- e)) by lia.
    destruct (binary_round_exact true m n e He HM' Hc) as (mz & ez & -> & Hez & Hmz).
    repeat split; assumption.
Qed.

Lemma shl_align_value (m : positive) (e e' : Z) :
  e' <= e -> Z.pos (fst (shl_align m e e')) = Z.pos m * 2 ^ (e - e').
Proof.
  intros He. unfold shl_align.
  destruct (e' - e) as [| j | j] eqn:Hj; cbn [fst].
  - replace (e - e') with 0 by lia. lia.
  - lia.
  - unfold shift_pos. rewrite iter_xO_value. f_equal. f_equal. lia.
Qed.

(** The aligned mantissa of a double that holds [z], with its sign. *)
Lemma aligned_holds (z : Z) (s : bool) (m : positive) (e e' : Z) :
  holds z (S754_finite s m e) -> e' <= e ->
  cond_Zopp s (Z.pos (fst (shl_align m e e'))) = z * 2 ^ (- e').
Proof.
  intros (-> & He & Hm) He'.
  rewrite shl_align_value, Hm, <- Z.mul_assoc, <- Z.pow_add_r by lia.
  replace (- e + (e - e')) with (- e') by lia.
  destruct (Z.ltb_spec z 0); cbn [cond_Zopp]; [rewrite Z.abs_neq | rewrite Z.abs_eq]; lia.
Qed.

Lemma holds_finite_nonzero (z : Z) (s : bool) (m : positive) (e : Z) :
  holds z (S754_finite s m e) -> z <> 0.
Proof. intros (_ & _ & Hm) ->. cbn in Hm. lia. Qed.

(** [x + y] of doubles that hold integers holds their sum, as long as
    it has at most 53 bits. *)
Lemma add_holds (a b : Z) (x y : PyFloat.float) :
  holds a x -> holds b y -> Z.abs (a + b) < 2 ^ 53 ->
  holds (a + b) (PyFloat.add x y).
Proof.
  intros Hx Hy Hsum.
  destruct x as [sx | sx | | sx mx ex]; try contradiction;
    destruct y as [sy | sy | | sy my ey]; try contradiction.
  - destruct Hx as [-> ->], Hy as [-> ->]. split; reflexivity.
  - destruct Hx as [-> ->]. exact Hy.
  - destruct Hy as [-> ->]. rewrite Z.add_0_r. exact Hx.
  - unfold PyFloat.add. cbn [SFadd].
    pose proof Hx as (_ & Hex & _). pose proof Hy as (_ & Hey & _).
    apply binary_normalize_holds; [lia | | exact Hsum].
    rewrite (aligned_holds a), (aligned_holds b) by (assumption || lia). lia.
Qed.

(** [x - y] likewise holds the difference. *)
Lemma sub_holds (a b : Z) (x y : PyFloat.float) :
  holds a x -> holds b y -> Z.abs (a - b) < 2 ^ 53 ->
  holds (a - b) (PyFloat.sub x y).
Proof.
  intros Hx Hy Hdiff.
  destruct x as [sx | sx | | sx mx ex]; try contradiction;
    destruct y as [sy | sy | | sy my ey]; try contradiction.
  - destruct Hx as [-> ->], Hy as [-> ->]. split; reflexivity.
  - destruct Hx as [-> ->].
    pose proof (holds_finite_nonzero _ _ _ _ Hy) as Hb.
    destruct Hy as (-> & Hey & Hmy).
    unfold PyFloat.sub. cbn [SFsub holds].
    split; [| split; [exact Hey |]].
    + destruct (Z.ltb_spec b 0), (Z.ltb_spec (0 - b) 0); cbn [negb]; lia || reflexivity.
    + rewrite Hmy. f_equal. lia.
  - destruct Hy as [-> ->]. rewrite Z.sub_0_r. exact Hx.
  - unfold PyFloat.sub. cbn [SFsub].
    pose proof Hx as (_ & Hex & _). pose proof Hy as (_ & Hey & _).
    apply binary_normalize_holds; [lia | | exact Hdiff].
    rewrite (aligned_holds a), (aligned_holds b) by (assumption || lia). lia.
Qed.

(** [float(n)] of an integer of at most 53 bits holds [n]. *)
Lemma of_int_holds (z : Z) :
  Z.abs z < 2 ^ 53 ->
  exists x, PyFloat.of_int z = Some x /\ holds z x.
Proof.
  intros Hz. destruct (of_int_small z Hz) as (x & Hx & _ & Hshape).
  exists x. split; [exact Hx |].
  destruct x; exact Hshape.
Qed.

(** [sum] over doubles that hold integers not below zero holds their
    sum. *)
Lemma fold_add_holds :
  forall (zs : list Z) (xs : list PyFloat.float) (a : Z) (acc : PyFloat.float),
    Forall2 holds zs xs -> holds a acc -> 0 <= a ->
    Forall (fun z => 0 <= z) zs ->
    a + fold_right Z.add 0 zs < 2 ^ 53 ->
    holds (a + fold_right Z.add 0 zs) (fold_left PyFloat.add xs acc).
Proof.
  induction zs as [| z zs IH]; intros xs a acc Hxs Hacc Ha Hpos Hsum;
    inversion Hxs as [| z' x zs' xs' Hx Hrest]; subst; cbn [fold_left fold_right] in *.
  - rewrite Z.add_0_r. exact Hacc.
  - inversion Hpos as [| z' zs' Hz Hzs]; subst.
    assert (Htail : 0 <= fold_right Z.add 0 zs).
    { clear - Hzs. induction Hzs; cbn [fold_right]; lia. }
    rewrite Z.add_assoc.
    apply IH; try assumption; try lia.
    apply add_holds; try assumption. lia.
Qed.

(** [f"{x:,.2f}"] of a double that holds an integer. *)
Lemma format_2f_holds (z : Z) (x : PyFloat.float) :
  holds z x -> PyFloat.format_2f x = figure z.
Proof.
  destruct x as [s | s | | s m e]; try contradiction.
  - intros [-> ->]. reflexivity.
  - intros (-> & He & Hm). unfold figure.
    apply (format_2f_integer (z <? 0) m e (Z.abs z) He Hm).
Qed.

End ExactSums.

(* ------------------------------------------------------------------ *)
(** ** What the prompt shows *)
(* ------------------------------------------------------------------ *)

Section PromptFigures.
Import PyStr Py App Props Readings.

Lemma append_empty_r (s : string) : s ++ "" = s.
Proof. induction s as [| c s IH]; cbn [append]; [reflexivity | rewrite IH; reflexivity]. Qed.

Lemma letter_is_kept (c : ascii) :
  is_cased c = true -> (if Ascii.eqb c "_" then " "%char else c) = c.
Proof.
  intros Hc.
  destruct c as [[] [] [] [] [] [] [] []]; try reflexivity; vm_compute in Hc; discriminate.
Qed.

(** Inside a word every letter is lower-cased. *)
Lemma title_from_letters (w t : string) :
  letters w = true ->
  title_from true (replace "_" " " (w ++ t))
  = lower w ++ title_from true (replace "_" " " t).
Proof.
  unfold replace, lower.
  induction w as [| c w IH]; cbn [letters append PyStr.map title_from]; [reflexivity |].
  intros Hw. apply andb_prop in Hw. destruct Hw as [Hc Hw].
  rewrite (letter_is_kept c Hc), Hc, (IH Hw). reflexivity.
Qed.

(** The first letter of a word is upper-cased. *)
Lemma title_from_word (w t : string) :
  is_word w = true ->
  title_from false (replace "_" " " (w ++ t))
  = capitalize w ++ title_from true (replace "_" " " t).
Proof.
  destruct w as [| c w]; [discriminate |].
  cbn [is_word letters]. intros Hw. apply andb_prop in Hw. destruct Hw as [Hc Hw].
  pose proof (title_from_letters w t Hw) as Hrest.
  unfold replace in *. cbn [append PyStr.map title_from capitalize].
  rewrite (letter_is_kept c Hc), Hc, Hrest. reflexivity.
Qed.

(** Title-casing a key made of words joined by underscores gives the
    capitalised words separated by spaces. *)
Lemma title_of_words (words : list string) :
  Forall (fun w => is_word w = true) words ->
  title (replace "_" " " (join "_" words)) = join " " (List.map capitalize words).
Proof.
  unfold title.
  induction 1 as [| w rest Hw Hrest IH]; [reflexivity |].
  destruct rest as [| w' rest].
  - cbn [join List.map]. rewrite <- (append_empty_r w) at 1.
    rewrite (title_from_word w "" Hw). apply append_empty_r.
  - change (join "_" (w :: w' :: rest)) with (w ++ "_" ++ join "_" (w' :: rest)).
    change (join " " (List.map capitalize (w :: w' :: rest)))
      with (capitalize w ++ " " ++ join " " (List.map capitalize (w' :: rest))).
    rewrite (title_from_word w _ Hw), <- IH. reflexivity.
Qed.

(** Every call of a validated request carries the same prompt. *)
Lemma analyze_prompts (req : request) (api : endpoint) (income : PyFloat.float)
    (parsed : dict PyFloat.float) :
  validate req = Next (income, parsed) ->
  exists n, (1 <= n)%nat
            /\ prompts (fst (analyze req api)) = repeat (prompt income parsed) n.
Proof.
  intros Hv.
  destruct (analyze_readings req api) as (_ & _ & ->).
  rewrite (analyze_try_validated _ api _ _ Hv).
  destruct (call_groq_schedule (prompt income parsed) api 3 0 eq_refl)
    as (_ & _ & Hpos & _ & Hsame).
  change (seq 0 max_retries) with (seq 0 3).
  apply Forall_eq_repeat in Hsame. rewrite prompts_length in Hsame.
  eexists. split; [apply Hpos; lia | exact Hsame].
Qed.

Lemma integer_total_fold (amounts : list (string * Z)) :
  integer_total amounts = fold_right Z.add 0 (List.map snd amounts).
Proof.
  induction amounts as [| e amounts IH]; cbn [integer_total fold_right List.map];
    [reflexivity |].
  fold (integer_total amounts). rewrite IH. reflexivity.
Qed.

Lemma integer_total_bounds (amounts : list (string * Z)) :
  Forall (fun e => 0 <= snd e) amounts ->
  0 <= integer_total amounts
  /\ Forall (fun e => snd e <= integer_total amounts) amounts.
Proof.
  induction 1 as [| e amounts He _ [IHpos IHall]]; cbn [integer_total fold_right].
  - split; [lia | constructor].
  - fold (integer_total amounts). split; [lia |].
    constructor; [lia |].
    eapply Forall_impl; [| exact IHall]. cbn beta. intros a Ha. lia.
Qed.

(** Integer amounts not below zero are accepted one by one, each as the
    double that holds it. *)
Lemma integer_expenses_accepted (amounts : list (string * Z)) :
  Forall (fun e => 0 <= snd e < 2 ^ 53) amounts ->
  exists ps : dict PyFloat.float,
    Forall2 accepted (integer_expenses amounts) ps
    /\ Forall2 (fun e p => fst p = fst e /\ holds (snd e) (snd p)) amounts ps.
Proof.
  induction 1 as [| [category z] amounts Hz _ (ps & Hacc & Hholds)].
  - exists []. split; constructor.
  - cbn [snd] in Hz.
    destruct (of_int_small z ltac:(lia)) as (x & Hx & Hlt & Hshape).
    assert (Hxz : holds z x) by (destruct x; exact Hshape).
    exists ((category, if z =? 0 then PyFloat.pos_zero else x) :: ps).
    split.
    + cbn [integer_expenses List.map fst snd].
      constructor; [| exact Hacc].
      unfold accepted, converted. cbn [fst snd truthy float].
      split; [reflexivity |].
      destruct (Z.eqb_spec z 0) as [-> | Hne]; cbn [negb].
      * split; reflexivity.
      * rewrite Hx. split; [reflexivity |].
        rewrite Hlt. apply Z.ltb_ge. lia.
    + constructor; [| exact Hholds].
      cbn [fst snd]. split; [reflexivity |].
      destruct (Z.eqb_spec z 0) as [-> | Hne]; [split; reflexivity | exact Hxz].
Qed.

Lemma held_values (amounts : list (string * Z)) (ps : dict PyFloat.float) :
  Forall2 (fun e p => fst p = fst e /\ holds (snd e) (snd p)) amounts ps ->
  Forall2 holds (List.map snd amounts) (values ps).
Proof.
  induction 1 as [| e p amounts ps [_ Hp] _ IH]; cbn [List.map values];
    constructor; assumption.
Qed.

Lemma held_lines (amounts : list (string * Z)) (ps : dict PyFloat.float) :
  Forall2 (fun e p => fst p = fst e /\ holds (snd e) (snd p)) amounts ps ->
  List.map expense_line ps
  = List.map (fun e => "  - " ++ title (replace "_" " " (fst e))
                         ++ ": â‚¹" ++ figure (snd e)) amounts.
Proof.
  induction 1 as [| e [category x] amounts ps [Hk Hp] _ IH]; cbn [List.map];
    [reflexivity |].
  cbn [fst snd] in Hk, Hp. subst category.
  rewrite IH. unfold expense_line. rewrite (format_2f_holds _ _ Hp). reflexivity.
Qed.

Lemma integer_expenses_keys (amounts : list (string * Z)) :
  keys (integer_expenses amounts) = List.map fst amounts.
Proof.
  unfold keys, integer_expenses. rewrite map_map. reflexivity.
Qed.

(** A body of integers in range passes validation as the doubles that
    hold them. *)
Lemma validate_integers (d : dict value) (i : Z) (amounts : list (string * Z)) :
  dict_get d "income" = Some (VInt i) ->
  dict_get d "expenses" = Some (VDict (integer_expenses amounts)) ->
  amounts <> [] ->
  NoDup (List.map fst amounts) ->
  0 <= i < 2 ^ 53 ->
  Forall (fun e => 0 <= snd e < 2 ^ 53) amounts ->
  exists income parsed,
    validate (Body (VDict d)) = Next (income, parsed)
    /\ holds i income
    /\ Forall2 (fun e p => fst p = fst e /\ holds (snd e) (snd p)) amounts parsed.
Proof.
  intros Hincome Hexp Hne Hnd Hi Hall.
  destruct (of_int_small i ltac:(lia)) as (x & Hx & Hlt & Hshape).
  destruct (integer_expenses_accepted amounts Hall) as (ps & Hacc & Hheld).
  exists x, ps.
  split; [| split; [destruct x; exact Hshape | exact Hheld]].
  rewrite validate_body, Hincome, Hexp.
  unfold validate_income. cbn [is_none str_strip_is_empty orb float].
  rewrite Hx, Hlt.
  destruct (Z.ltb_spec i 0); [lia |]. cbn [bind].
  unfold validate_expenses.
  destruct amounts as [| e amounts]; [congruence |].
  cbn [integer_expenses List.map isinstance_dict truthy negb orb items].
  change ((fst e, VInt (snd e)) :: List.map (fun e0 => (fst e0, VInt (snd e0))) amounts)
    with (integer_expenses (e :: amounts)).
  rewrite (parse_expenses_accepts (integer_expenses (e :: amounts)) ps []).
  - reflexivity.
  - cbn [keys List.map app]. fold (keys (integer_expenses (e :: amounts))).
    rewrite integer_expenses_keys. exact Hnd.
  - exact Hacc.
Qed.

(** C6: the prompt of a validated request, in three parts.

    First, for a request that passes validation and whose categories are
    ASCII: every call carries the template filled in with, after
    [Total Expenses], the sum of the parsed amounts, after [Remaining],
    the income minus that sum, and under [Expense Breakdown] one line per
    entry of the parsed expenses, in order, showing the category with
    underscores replaced by spaces and title-cased (as many lines as
    categories when no category holds a line feed); the parsed expenses
    are, category by category, the amounts of the request converted by
    [float] ([0.0] for a false amount).  (A string amount passes
    validation here only as an ASCII numeral; numerals in other scripts,
    which CPython also reads, are outside this statement.)

    Second, what the sum and the difference are: for an income and
    amounts that are integers not below zero, with the income and the
    total below [2 ** 53], the prompt reads the income, the exact total
    of the amounts and the exact difference of the two (negative when
    the expenses exceed the income), each with thousands separators and
    two decimals, and each category's line reads its own amount.

    Third, what title-casing is: a category made of words of ASCII
    letters joined by underscores is shown as the words, each with its
    first letter in upper case and the others in lower case, separated
    by spaces. *)
Theorem prompt_reports_expenses :
  (forall (req : request) (api : endpoint) (income : PyFloat.float)
          (parsed : dict PyFloat.float),
      validate req = Next (income, parsed) ->
      Forall (fun cat => is_ascii cat = true) (keys parsed) ->
      (exists n, (1 <= n)%nat
                 /\ prompts (fst (analyze req api)) = repeat (prompt income parsed) n)
      /\ prompt income parsed
         = prompt_head ++ PyFloat.format_2f income ++ nl
             ++ "Total Expenses : â‚¹" ++ PyFloat.format_2f (PyFloat.sum (values parsed)) ++ nl
             ++ "Remaining      : â‚¹"
             ++ PyFloat.format_2f (PyFloat.sub income (PyFloat.sum (values parsed))) ++ nl
             ++ nl ++ "Expense Breakdown:" ++ nl
             ++ expense_lines parsed
             ++ prompt_tail
      /\ expense_lines parsed
         = join nl (List.map (fun entry =>
                                "  - " ++ title (replace "_" " " (fst entry))
                                  ++ ": â‚¹" ++ PyFloat.format_2f (snd entry))
                             parsed)
      /\ (Forall (fun cat => line_feeds cat = 0%nat) (keys parsed) ->
          line_feeds (expense_lines parsed) = (Datatypes.length parsed - 1)%nat)
      /\ exists d entries,
           req = Body (VDict d)
           /\ dict_get d "expenses" = Some (VDict entries)
           /\ (NoDup (keys entries) ->
               Forall2 accepted entries parsed
               /\ keys parsed = keys entries
               /\ Datatypes.length parsed = Datatypes.length entries))
  /\ (forall (d : dict value) (api : endpoint) (i : Z) (amounts : list (string * Z)),
        dict_get d "income" = Some (VInt i) ->
        dict_get d "expenses" = Some (VDict (integer_expenses amounts)) ->
        amounts <> [] ->
        NoDup (List.map fst amounts) ->
        Forall (fun e => is_ascii (fst e) = true /\ 0 <= snd e) amounts ->
        0 <= i < 2 ^ 53 ->
        integer_total amounts < 2 ^ 53 ->
        exists n, (1 <= n)%nat
          /\ prompts (fst (analyze (Body (VDict d)) api))
             = repeat (prompt_head ++ figure i ++ nl
                         ++ "Total Expenses : â‚¹" ++ figure (integer_total amounts) ++ nl
                         ++ "Remaining      : â‚¹" ++ figure (i - integer_total amounts) ++ nl
                         ++ nl ++ "Expense Breakdown:" ++ nl
                         ++ join nl (List.map (fun e =>
                                                 "  - " ++ title (replace "_" " " (fst e))
                                                   ++ ": â‚¹" ++ figure (snd e))
                                              amounts)
                         ++ prompt_tail) n)
  /\ (forall words : list string,
        Forall (fun w => is_word w = true) words ->
        title (replace "_" " " (join "_" words))
        = join " " (List.map capitalize words)).
Proof.
  split; [| split].
  - intros req api income parsed Hv _.
    split; [apply analyze_prompts; exact Hv |].
    split; [reflexivity |].
    split; [| split].
    + unfold expense_lines. f_equal.
      apply map_ext. intros [cat amt]. reflexivity.
    + apply line_feeds_expense_lines.
    + destruct (validate_next_inv req income parsed Hv)
        as (d & entries & -> & _ & Hexp & _ & Hparse).
      exists d, entries. split; [reflexivity |]. split; [exact Hexp |].
      intros Hnd.
      destruct (parse_expenses_next entries [] parsed Hnd Hparse) as (ps & -> & Hacc).
      cbn [app]. split; [exact Hacc |].
      split; [apply accepted_keys; exact Hacc |].
      symmetry. apply (Forall2_length Hacc).
  - intros d api i amounts Hincome Hexp Hne Hnd Hall Hi Htotal.
    assert (Hpos : Forall (fun e => 0 <= snd e) amounts)
      by (eapply Forall_impl; [| exact Hall]; cbn beta; intros e [_ He]; exact He).
    destruct (integer_total_bounds amounts Hpos) as [Htotal0 Heach].
    assert (Hrange : Forall (fun e => 0 <= snd e < 2 ^ 53) amounts).
    { apply Forall_forall. intros e He.
      rewrite Forall_forall in Hpos, Heach.
      specialize (Hpos e He). specialize (Heach e He). lia. }
    destruct (validate_integers d i amounts Hincome Hexp Hne Hnd Hi Hrange)
      as (income & parsed & Hv & Hinc & Hheld).
    destruct (analyze_prompts _ api _ _ Hv) as (n & Hn & Hprompts).
    exists n. split; [exact Hn |].
    rewrite Hprompts. f_equal.
    assert (Hsum : holds (integer_total amounts) (total_expenses parsed)).
    { unfold total_expenses, PyFloat.sum.
      rewrite integer_total_fold. rewrite integer_total_fold in Htotal.
      change (fold_right Z.add 0 (List.map snd amounts))
        with (0 + fold_right Z.add 0 (List.map snd amounts)).
      apply fold_add_holds.
      - apply held_values. exact Hheld.
      - split; reflexivity.
      - lia.
      - apply Forall_map. exact Hpos.
      - exact Htotal. }
    assert (Hrem : holds (i - integer_total amounts)
                     (PyFloat.sub income (total_expenses parsed)))
      by (apply sub_holds; [exact Hinc | exact Hsum | lia]).
    unfold prompt, expense_lines.
    rewrite (format_2f_holds _ _ Hinc), (format_2f_holds _ _ Hsum),
      (format_2f_holds _ _ Hrem), (held_lines amounts parsed Hheld).
    reflexivity.
  - apply title_of_words.
Qed.

Lemma prompt_reports_expenses_witness :
  validate Samples.budget = Next (Samples.budget_income, Samples.budget_parsed)
  /\ (exists n, (1 <= n)%nat
        /\ prompts (fst (analyze Samples.budget Samples.advises))
           = repeat (prompt_head ++ "50,000.00" ++ nl
                       ++ "Total Expenses : â‚¹19,500.50" ++ nl
                       ++ "Remaining      : â‚¹30,499.50" ++ nl
                       ++ nl ++ "Expense Breakdown:" ++ nl
                       ++ "  - Rent: â‚¹15,000.00" ++ nl
                       ++ "  - Food And Dining: â‚¹4,500.50" ++ nl
                       ++ "  - Misc: â‚¹0.00"
                       ++ prompt_tail) n)
  /\ (exists n, (1 <= n)%nat
        /\ prompts (fst (analyze (Body (VDict overspent)) Samples.advises))
           = repeat (prompt_head ++ "20,000.00" ++ nl
                       ++ "Total Expenses : â‚¹21,250.00" ++ nl
                       ++ "Remaining      : â‚¹-1,250.00" ++ nl
                       ++ nl ++ "Expense Breakdown:" ++ nl
                       ++ "  - Rent: â‚¹15,000.00" ++ nl
                       ++ "  - Food And Dining: â‚¹6,250.00" ++ nl
                       ++ "  - Misc: â‚¹0.00"
                       ++ prompt_tail) n)
  /\ title (replace "_" " " "food_AND_dining") = "Food And Dining".
Proof.
  assert (Hv : validate Samples.budget
               = Next (Samples.budget_income, Samples.budget_parsed))
    by (vm_compute; reflexivity).
  split; [exact Hv |].
  split; [| split].
  - pose proof (proj1 (proj1 prompt_reports_expenses Samples.budget Samples.advises
                         Samples.budget_income Samples.budget_parsed Hv
                         ltac:(repeat constructor))) as H.
    vm_compute in H |- *. exact H.
  - pose proof (proj1 (proj2 prompt_reports_expenses) overspent Samples.advises 20000
                  [("rent", 15000); ("food_and_dining", 6250); ("misc", 0)]
                  eq_refl eq_refl ltac:(discriminate)) as H.
    assert (Hnd : NoDup (List.map fst [("rent", 15000); ("food_and_dining", 6250);
                                       ("misc", 0)]))
      by (repeat constructor; cbn; intuition discriminate).
    assert (Hall : Forall (fun e : string * Z => is_ascii (fst e) = true /\ 0 <= snd e)
                     [("rent", 15000); ("food_and_dining", 6250); ("misc", 0)])
      by (repeat constructor; cbn; lia).
    specialize (H Hnd Hall ltac:(lia) ltac:(cbn; lia)).
    vm_compute in H |- *. exact H.
  - exact (proj2 (proj2 prompt_reports_expenses) ["food"; "AND"; "dining"]
             ltac:(repeat constructor)).
Defined.

End PromptFigures.
